(** * very-axios: the VeryAxios request client of src/index.js

    A shallow embedding of the class [VeryAxios]: its constructor, the three
    interceptors it installs on the axios instance, the dispatch method
    [fetch], the verb methods [GET], [POST], [PUT] and [DELETE], and
    [FORMDATA].

    JavaScript values are a small inductive type (the JSON scalars, plain
    objects as finite maps from property names, and opaque functions).
    Caller-supplied callbacks are opaque: invoking one appends a [Call] event
    to the trace and returns [undefined].  Exceptions and the promise built by
    the success interceptor are carried by a state-and-error monad. *)

From stdpp Require Import gmap strings pretty list fin_maps.

Set Warnings "-register-all".

(** ** JavaScript values and the operators index.js applies to them *)

Module JS.

(** A function value: the empty arrow function [() => {}] or a callback
    supplied by the caller, known by its name only. *)
Inductive func :=
| Noop
| Callback (name : string).

(** Numbers are the integers (status codes, timeouts); an object is a plain
    record of own properties; [VTypeError] is the error the engine throws. *)
Inductive value :=
| VUndefined
| VNull
| VBool (b : bool)
| VNum (n : Z)
| VStr (s : string)
| VFun (f : func)
| VObj (fields : gmap string value)
| VTypeError.

(** ToBoolean, as used by [if], [!], [&&] and [||]. *)
Definition truthy (v : value) : bool :=
  match v with
  | VUndefined | VNull => false
  | VBool b => b
  | VNum n => negb (n =? 0)%Z
  | VStr s => negb (String.eqb s "")
  | VFun _ | VObj _ | VTypeError => true
  end.

Definition typeof (v : value) : string :=
  match v with
  | VUndefined => "undefined"
  | VNull => "object"
  | VBool _ => "boolean"
  | VNum _ => "number"
  | VStr _ => "string"
  | VFun _ => "function"
  | VObj _ | VTypeError => "object"
  end.

Definition is_function (v : value) : bool := String.eqb (typeof v) "function".

(** [String(v)]; also the property key [v] denotes in [o[v]]. *)
Definition ToString (v : value) : string :=
  match v with
  | VUndefined => "undefined"
  | VNull => "null"
  | VBool true => "true"
  | VBool false => "false"
  | VNum n => pretty n
  | VStr s => s
  | VFun _ => "function () { }"
  | VObj _ => "[object Object]"
  | VTypeError => "TypeError"
  end.

(** [a && b] and [a || b] on values whose evaluation has no effect. *)
Definition and (a b : value) : value := if truthy a then b else a.
Definition or (a b : value) : value := if truthy a then a else b.

(** A default parameter value applies exactly when the argument is
    [undefined]. *)
Definition default_to (d v : value) : value :=
  match v with VUndefined => d | _ => v end.

Inductive completion (A : Type) :=
| Normal (a : A)
| Throw (e : value).
Arguments Normal {A} a.
Arguments Throw {A} e.

(** [v.k] and [v[k]]: reading a property of [undefined] or [null] throws a
    TypeError; a missing property reads [undefined].  Only own properties
    are modelled. *)
Definition get_prop (v : value) (k : string) : completion value :=
  match v with
  | VUndefined | VNull => Throw VTypeError
  | VObj m => Normal (default VUndefined (m !! k))
  | _ => Normal VUndefined
  end.

(** Reading a field of an object known to be one. *)
Definition field (m : gmap string value) (k : string) : value :=
  default VUndefined (m !! k).

Definition own_keys (v : value) : gset string :=
  match v with VObj m => dom m | _ => ∅ end.

(** *** Effects *)

Inductive event := Call (f : string) (args : list value).

Inductive pstate :=
| Pending
| Fulfilled (v : value)
| Rejected (r : value).

(** The trace of callback invocations, and the state of the promise whose
    executor is running. *)
Record world := World { trace : list event; promise : pstate }.

Definition M (A : Type) : Type := world -> completion A * world.

Definition ret {A} (a : A) : M A := fun w => (Normal a, w).

Definition bind {A B} (m : M A) (k : A -> M B) : M B :=
  fun w =>
    match m w with
    | (Normal a, w') => k a w'
    | (Throw e, w') => (Throw e, w')
    end.

#[global] Instance M_ret : MRet M := @ret.
#[global] Instance M_bind : MBind M := fun A B k m => bind m k.

Definition lift {A} (r : completion A) : M A := fun w => (r, w).

Definition emit (e : event) : M unit :=
  fun w => (Normal tt, World (trace w ++ [e]) (promise w)).

(** [if (b) stmt] for a statement. *)
Definition when (b : bool) (m : M unit) : M unit :=
  if b then m else ret tt.

(** [f(args)]: calling what is not a function throws a TypeError. *)
Definition call (f : value) (args : list value) : M unit :=
  match f with
  | VFun Noop => ret tt
  | VFun (Callback name) => emit (Call name args)
  | _ => lift (Throw VTypeError)
  end.

(** The [resolve] and [reject] functions of a promise settle it once; a
    later call is ignored. *)
Definition settle (s : pstate) : M unit :=
  fun w =>
    match promise w with
    | Pending => (Normal tt, World (trace w) s)
    | _ => (Normal tt, w)
    end.

Definition resolve (v : value) : M unit := settle (Fulfilled v).
Definition reject (r : value) : M unit := settle (Rejected r).

(** [new Promise(executor)]: the executor runs at once; an exception
    escaping it rejects the promise unless it is settled already. *)
Definition new_promise (executor : M unit) : M pstate :=
  fun w =>
    let outer := promise w in
    match executor (World (trace w) Pending) with
    | (Normal _, w') => (Normal (promise w'), World (trace w') outer)
    | (Throw e, w') =>
        match promise w' with
        | Pending => (Normal (Rejected e), World (trace w') outer)
        | p => (Normal p, World (trace w') outer)
        end
    end.

End JS.

Export JS.

(** ** The error-message catalog (index.js, lines 3-32) *)

Definition zh_cn : gmap string value :=
  {[ "DEFAULT" := VStr "接口请求失败";
     "OFFLINE" := VStr "网络连接断开";
     "400" := VStr "请求错误";
     "401" := VStr "未授权，请确认是否登录";
     "403" := VStr "无权限，禁止访问";
     "404" := VStr "接口或资源不存在";
     "405" := VStr "请求方式不允许";
     "413" := VStr "资源过大";
     "414" := VStr "URI过长";
     "500" := VStr "服务器内部错误";
     "502" := VStr "网关错误";
     "504" := VStr "网关超时" ]}.

Definition en : gmap string value :=
  {[ "DEFAULT" := VStr "Request Failed";
     "OFFLINE" := VStr "Network is Offline";
     "400" := VStr "Bad Request";
     "401" := VStr "Unauthorized";
     "403" := VStr "Forbidden";
     "404" := VStr "Not Found";
     "405" := VStr "Method Not Allowed";
     "413" := VStr "Payload Too Large";
     "414" := VStr "URI Too Long";
     "500" := VStr "Internal Server Error";
     "502" := VStr "Bad Gateway";
     "504" := VStr "Gateway Timeout" ]}.

Definition ERROR_MESSAGE_MAPS : value :=
  VObj {[ "zh-cn" := VObj zh_cn; "en" := VObj en ]}.

(** ** What index.js reads from its surroundings *)

(** [window.navigator.onLine], and the binding the identifier
    [errorHandlers] resolves to inside [interceptors()].  That method and the
    module declare no such name (the constructor's parameter of that name is
    out of scope there), so the identifier denotes a property of the global
    object when a page defines one, and is unresolvable otherwise. *)
Record environment := Environment {
  onLine : bool;
  errorHandlers_global : option value
}.

(** [typeof errorHandlers]: [typeof] of an unresolvable reference is
    ["undefined"] and does not throw. *)
Definition typeof_errorHandlers (env : environment) : string :=
  match errorHandlers_global env with
  | None => "undefined"
  | Some v => typeof v
  end.

(** ** The class VeryAxios (index.js, lines 34-76) *)

(** The three accessors are functions of the response body; they may throw. *)
Definition accessor : Type := value -> completion value.

(** The first constructor argument.  An absent option is [VUndefined] or
    [None]. *)
Record options := Options {
  opt_tip : value;
  opt_tipFn : value;
  opt_errorHandlers : option (gmap string func);
  opt_lang : option string;
  opt_loadingHandler : value;
  opt_loadingCancelHanlder : value;
  opt_getResponseStatus : option accessor;
  opt_getResponseMessage : option accessor;
  opt_getResponseData : option accessor
}.

(** [new VeryAxios()] and [new VeryAxios({})]. *)
Definition no_options : options :=
  Options VUndefined VUndefined None None VUndefined VUndefined None None None.

(** The fields of an instance. *)
Record VeryAxios := Instance {
  defaultAxiosConfig : gmap string value;
  tip : value;
  tipFn : value;
  errorHandlers : gmap string func;
  lang : string;
  loadingHandler : value;
  loadingCancelHanlder : value;
  getResponseStatus : accessor;
  getResponseMessage : accessor;
  getResponseData : accessor;
  config : gmap string value
}.

Definition default_config : gmap string value :=
  {[ "timeout" := VNum 20000;
     "responseType" := VStr "json";
     "headers" := VObj {[ "content-type" := VStr "application/json" ]} ]}.

(** [{ ...a, ...b }] where [b] may be [undefined]: the properties of [b]
    override those of [a]. *)
Definition spread (a : gmap string value) (b : option (gmap string value))
  : gmap string value :=
  default ∅ b ∪ a.

Definition constructor (o : options) (axiosConfig : option (gmap string value))
  : VeryAxios :=
  let tip := default_to (VBool true) (opt_tip o) in
  let tipFn := opt_tipFn o in
  {| defaultAxiosConfig := default_config;
     tip := JS.and (JS.and tip tipFn) (VBool (String.eqb (typeof tipFn) "function"));
     tipFn := tipFn;
     errorHandlers := default ∅ (opt_errorHandlers o);
     lang := default "zh-cn" (opt_lang o);
     loadingHandler := default_to (VFun Noop) (opt_loadingHandler o);
     loadingCancelHanlder := default_to (VFun Noop) (opt_loadingCancelHanlder o);
     getResponseStatus :=
       default (fun response => get_prop response "errno") (opt_getResponseStatus o);
     getResponseMessage :=
       default (fun response => get_prop response "errmsg") (opt_getResponseMessage o);
     getResponseData :=
       default (fun response => get_prop response "data") (opt_getResponseData o);
     config := spread default_config axiosConfig |}.

(** ** What axios hands to the interceptors *)

(** A response: the request's config, the HTTP status and the parsed body. *)
Record response := Response {
  res_config : gmap string value;
  res_status : Z;
  res_data : value
}.

(** An error built by axios, which always carries the request's config:
    [error.response] is present when the server answered, [error.request]
    when the request was sent. *)
Record error := Error {
  err_config : gmap string value;
  err_response : option response;
  err_request : bool;
  err_message : string
}.

(** What the rejected handler of the response interceptor can be handed: an
    error built by axios, or a reason that carries no config, neither
    request nor response: a [Cancel], or an exception thrown while the
    request was being set up.  [message] is the [message] property of such a
    reason. *)
Inductive rejection :=
| AxiosError (error : error)
| Bare (message : string).

(** ** interceptors() (index.js, lines 82-146) *)

Module interceptors.

(** [config.veryAxiosConfig && config.veryAxiosConfig.loading] *)
Definition loading (config : gmap string value) : M value :=
  let veryAxiosConfig := field config "veryAxiosConfig" in
  if truthy veryAxiosConfig then lift (get_prop veryAxiosConfig "loading")
  else mret veryAxiosConfig.

(** [loading && handler && typeof handler === 'function'] *)
Definition gate (loading handler : value) : bool :=
  truthy (JS.and (JS.and loading handler) (VBool (is_function handler))).

(** [this.errorHandlers[status]] *)
Definition handler_for (this : VeryAxios) (status : value) : value :=
  match errorHandlers this !! ToString status with
  | Some f => VFun f
  | None => VUndefined
  end.

(** [if (errorHandler && typeof errorHandlers === 'function') errorHandler()] *)
Definition run_handler (env : environment) (errorHandler : value) : M unit :=
  when (truthy errorHandler && String.eqb (typeof_errorHandlers env) "function")
    (call errorHandler []).

(** The request interceptor (lines 84-88). *)
Definition request (this : VeryAxios) (config : gmap string value)
  : M (gmap string value) :=
  loading ← loading config;
  when (gate loading (loadingHandler this)) (call (loadingHandler this) []);;
  mret config.

(** The executor of the promise the success interceptor returns
    (lines 98-112).  [res] is an object, so [!res || !res.data] is
    [!res.data]. *)
Definition executor (env : environment) (this : VeryAxios) (res : response)
  : M unit :=
  when (negb (truthy (res_data res))) (resolve VUndefined);;
  let resData := res_data res in
  status ← lift (getResponseStatus this resData);
  m ← lift (getResponseMessage this resData);
  message ← (if truthy m then mret m
             else maps ← lift (get_prop ERROR_MESSAGE_MAPS (lang this));
                  lift (get_prop maps "DEFAULT"));
  data ← lift (getResponseData this resData);
  when (negb (String.eqb (ToString status) "0"))
    (when (truthy (tip this)) (call (tipFn this) [message]);;
     run_handler env (handler_for this status);;
     reject message);;
  resolve data.

(** The success interceptor (lines 94-113). *)
Definition response_success (env : environment) (this : VeryAxios)
  (res : response) : M pstate :=
  loading ← loading (res_config res);
  when (gate loading (loadingCancelHanlder this))
    (call (loadingCancelHanlder this) []);;
  new_promise (executor env this res).

(** The error interceptor (lines 116-144) on an error that carries its
    config.  [errmsg0] is the initial value of [errmsg] (line 122),
    overwritten on every branch.  The function has no [return]: its value is
    [undefined]. *)
Definition response_error (env : environment) (this : VeryAxios)
  (error : error) : M value :=
  loading ← loading (err_config error);
  when (gate loading (loadingCancelHanlder this))
    (call (loadingCancelHanlder this) []);;
  errmsgMaps ← lift (get_prop ERROR_MESSAGE_MAPS (lang this));
  errmsg0 ← lift (get_prop errmsgMaps "DEFAULT");
  errmsg ←
    match err_response error with
    | Some response =>
        let status := VNum (res_status response) in
        errmsg ← (if negb (onLine env) then lift (get_prop errmsgMaps "OFFLINE")
                  else entry ← lift (get_prop errmsgMaps (ToString status));
                       mret (JS.or entry (VStr (err_message error))));
        run_handler env (handler_for this status);;
        mret errmsg
    | None =>
        if err_request error then mret (VStr (err_message error))
        else mret (VStr (err_message error))
    end;
  when (truthy (tip this)) (call (tipFn this) [errmsg]);;
  mret VUndefined.

(** The error interceptor on any reason.  Line 117 takes [config] out of the
    reason and line 118 reads [config.veryAxiosConfig] unguarded: on a reason
    without config that throws a TypeError before anything else is done. *)
Definition rejected (env : environment) (this : VeryAxios) (reason : rejection)
  : M value :=
  match reason with
  | AxiosError error => response_error env this error
  | Bare _ => lift (Throw VTypeError)
  end.

End interceptors.

(** ** The axios instance created by createAxios() (index.js, lines 78-80)

    axios is a dependency of index.js, not part of it.  Of the library the
    model keeps what the class relies on: the argument conventions of the
    verb methods, the merge of the call's config over the instance defaults,
    and the chain request interceptor, transport, response interceptor.  The
    transport itself is a parameter.

    The merge is taken key by key, the call's value first.  The versions of
    axios differ on a custom key that only the instance's config has (0.19
    drops it) and on nested objects such as the headers (merged in depth):
    the statements below that depend on the merged [veryAxiosConfig] assume
    that the instance's config has none, and none reads the headers. *)

Module Axios.

(** What the transport does with a request: a 2xx answer; a failure axios
    reports with an error of its own, which carries the config and the
    server's response when there was one; or a rejection whose reason carries
    no config, the request being cancelled or an exception being thrown while
    it is set up (for one, by [transformRequest] on a body that cannot be
    serialised). *)
Inductive outcome :=
| Answer (status : Z) (data : value)
| Failure (response : option (Z * value)) (request : bool) (message : string)
| Aborted (message : string).

Definition network : Type := gmap string value -> outcome.

(** The type strings [fetch] is called with. *)
Inductive verb := get | post | put | delete.

Definition verb_name (type : verb) : string :=
  match type with
  | get => "get" | post => "post" | put => "put" | delete => "delete"
  end.

(** [config || {}] *)
Definition as_config (v : value) : gmap string value :=
  match v with VObj m => m | _ => ∅ end.

(** [axios.get(url, config)] and [axios.delete(url, config)] take the config
    second and ignore a third argument; [axios.post(url, data, config)] and
    [axios.put(url, data, config)] take the body second and the config
    third. *)
Definition method_config (type : verb) (url : string) (a b : value)
  : gmap string value :=
  match type with
  | get | delete =>
      <["method" := VStr (verb_name type)]> (<["url" := VStr url]> (as_config a))
  | post | put =>
      <["method" := VStr (verb_name type)]>
        (<["url" := VStr url]> (<["data" := a]> (as_config b)))
  end.

(** [axios(url, config)]: the config, with the url. *)
Definition call_config (url : string) (config : value) : gmap string value :=
  <["url" := VStr url]> (as_config config).

(** A promise adopts an exception thrown by a handler of its chain. *)
Definition settled (m : M pstate) : M pstate :=
  fun w =>
    match m w with
    | (Normal p, w') => (Normal p, w')
    | (Throw e, w') => (Normal (Rejected e), w')
    end.

(** [instance.request(config)]: the promise at the end of the chain.  A
    success interceptor's promise is adopted; the error interceptor's return
    value fulfils the chain, and an exception it throws rejects it. *)
Definition request (env : environment) (this : VeryAxios) (net : network)
  (call_config : gmap string value) : M pstate :=
  settled
    (config ← interceptors.request this (call_config ∪ config this);
     match net config with
     | Answer status data =>
         interceptors.response_success env this (Response config status data)
     | Failure r sent message =>
         let response :=
           (fun '(status, data) => Response config status data) <$> r in
         v ← interceptors.rejected env this
               (AxiosError (Error config response sent message));
         mret (Fulfilled v)
     | Aborted message =>
         v ← interceptors.rejected env this (Bare message);
         mret (Fulfilled v)
     end).

End Axios.

Import Axios.

(** ** fetch and the verb methods (index.js, lines 154-196) *)

(** [fetch(type, path, param = {}, config = {})]: the returned promise is
    resolved or rejected with whatever the axios promise settles to. *)
Definition fetch (env : environment) (this : VeryAxios) (net : network)
  (type : verb) (path : string) (param config : value) : M pstate :=
  let param := default_to (VObj ∅) param in
  let config := default_to (VObj ∅) config in
  new_promise
    (p ← Axios.request env this net (method_config type path param config);
     match p with
     | Fulfilled response => resolve response
     | Rejected err => reject err
     | Pending => mret tt
     end).

Definition GET (env : environment) (this : VeryAxios) (net : network)
  (path : string) (param options : value) : M pstate :=
  let param := default_to (VObj ∅) param in
  let options := default_to (VObj ∅) options in
  fetch env this net get path
    (VObj {[ "params" := param; "veryAxiosConfig" := options ]}) VUndefined.

Definition POST (env : environment) (this : VeryAxios) (net : network)
  (path : string) (param options : value) : M pstate :=
  let param := default_to (VObj ∅) param in
  let options := default_to (VObj ∅) options in
  fetch env this net post path param options.

Definition PUT (env : environment) (this : VeryAxios) (net : network)
  (path : string) (param options : value) : M pstate :=
  let param := default_to (VObj ∅) param in
  let options := default_to (VObj ∅) options in
  fetch env this net put path param options.

Definition DELETE (env : environment) (this : VeryAxios) (net : network)
  (path : string) (param options : value) : M pstate :=
  let param := default_to (VObj ∅) param in
  let options := default_to (VObj ∅) options in
  fetch env this net delete path param options.

(** [FORMDATA(path, formdata)] (lines 203-213): the axios instance is called
    directly, with the method and the content type fixed. *)
Definition FORMDATA (env : environment) (this : VeryAxios) (net : network)
  (path : string) (formdata : value) : M pstate :=
  new_promise
    (p ← Axios.request env this net
           (Axios.call_config path
              (VObj {[ "method" := VStr "post";
                       "data" := formdata;
                       "headers" :=
                         VObj {[ "content-type" :=
                                   VStr "multipart/form-data;charset=UTF-8" ]} ]}));
     match p with
     | Fulfilled response => resolve response
     | Rejected err => reject err
     | Pending => mret tt
     end).

(** ** Running a computation *)

Definition start : world := World [] Pending.

(** The callbacks invoked, in order, and the result. *)
Definition run {A} (m : M A) : completion A * list event :=
  let '(r, w) := m start in (r, trace w).

(** A browser that is online, where no global named [errorHandlers] exists. *)
Definition browser : environment := Environment true None.

(** ** Vocabulary of the statements *)

(** The languages of the catalog. *)
Definition supported (l : string) : Prop := l = "zh-cn" \/ l = "en".

(** The catalog's entry for a language and a key, [undefined] when there is
    none. *)
Definition catalog (l k : string) : value :=
  match get_prop ERROR_MESSAGE_MAPS l with
  | Normal maps =>
      match get_prop maps k with
      | Normal v => v
      | Throw _ => VUndefined
      end
  | Throw _ => VUndefined
  end.

(** The events one invocation of [f] leaves in the trace. *)
Definition calls (f : value) (args : list value) : list event :=
  match f with
  | VFun (Callback name) => [Call name args]
  | _ => []
  end.

(** The loading flag of a request: the [loading] property of the config's
    [veryAxiosConfig], when that is present. *)
Definition loading_flag (config : gmap string value) : value :=
  match config !! "veryAxiosConfig" with
  | Some (VObj o) => default VUndefined (o !! "loading")
  | Some v => if truthy v then VUndefined else v
  | None => VUndefined
  end.

(** The invocations of a loading callback for a request: one when the flag is
    truthy and the callback is a function, none otherwise. *)
Definition loading_calls (config : gmap string value) (handler : value)
  : list event :=
  if truthy (loading_flag config) && is_function handler
  then calls handler [] else [].

(** Tipping [message] when the stored gate is on. *)
Definition tip_calls (this : VeryAxios) (message : value) : list event :=
  if truthy (tip this) then calls (tipFn this) [message] else [].

(** The invocations of the handler registered for [status]: it runs only
    where [typeof errorHandlers] is ["function"]. *)
Definition handler_calls (env : environment) (this : VeryAxios) (status : value)
  : list event :=
  match errorHandlers this !! ToString status with
  | Some f =>
      if String.eqb (typeof_errorHandlers env) "function"
      then calls (VFun f) [] else []
  | None => []
  end.

(** The message of a transport failure, by the priority the specification
    gives: with a server response, OFFLINE when the client is offline, else
    the catalog entry of the status code, else the raw message; without a
    response, the raw message. *)
Definition resolved_message (env : environment) (l : string) (error : error)
  : value :=
  match err_response error with
  | Some response =>
      if onLine env then
        match catalog l (pretty (res_status response)) with
        | VUndefined => VStr (err_message error)
        | entry => entry
        end
      else catalog l "OFFLINE"
  | None => VStr (err_message error)
  end.

(** The message of a business response: the one the accessor read, or the
    DEFAULT entry of the language when that one is falsy. *)
Definition business_message (this : VeryAxios) (m : value) : value :=
  JS.or m (catalog (lang this) "DEFAULT").

(** What the guard of line 99 leaves of the promise. *)
Definition after_guard (res : response) : pstate :=
  if truthy (res_data res) then Pending else Fulfilled VUndefined.

(** Settling a promise that may be settled already. *)
Definition settle_pure (s p : pstate) : pstate :=
  match p with Pending => s | _ => p end.

(** The handler invocations of the error path: for the status of the
    server's response, when there is one. *)
Definition failure_handler_calls (env : environment) (this : VeryAxios)
  (error : error) : list event :=
  match err_response error with
  | Some response => handler_calls env this (VNum (res_status response))
  | None => []
  end.

(** ** Inputs and statements the claims are settled on *)

(** A client with a tip function and handlers registered for the business
    status 1 and for the HTTP status 404. *)
Definition client_with_handlers : VeryAxios :=
  constructor
    (Options VUndefined (VFun (Callback "tipFn"))
       (Some {[ "1" := Callback "handler1"; "404" := Callback "handler404" ]})
       None VUndefined VUndefined None None None)
    None.

(** A 2xx response whose body carries the business status 1. *)
Definition business_failure_1 : response :=
  Response ∅ 200 (VObj {[ "errno" := VNum 1; "errmsg" := VStr "boom" ]}).

(** The server answered 404. *)
Definition not_found_failure : error :=
  Error ∅ (Some (Response ∅ 404 VNull)) true "Request failed with status code 404".

(** The side conditions of the amended C2 and C3: the body is truthy; an
    accessor returns on it; the message read is truthy or the language is one
    of the catalog's. *)
Definition body_present (this : VeryAxios) (res : response) : Prop :=
  truthy (res_data res) = true.

Definition message_read (this : VeryAxios) (res : response) : Prop :=
  exists m, getResponseMessage this (res_data res) = Normal m.

Definition data_read (this : VeryAxios) (res : response) : Prop :=
  exists data, getResponseData this (res_data res) = Normal data.

Definition message_resolved (this : VeryAxios) (res : response) : Prop :=
  forall m, getResponseMessage this (res_data res) = Normal m ->
            truthy m = true \/ supported (lang this).

(** C2 under a side condition on the instance and the response. *)
Definition resolves_with_payload_under (side : VeryAxios -> response -> Prop)
  : Prop :=
  forall (env : environment) (this : VeryAxios) (res : response)
         (status data : value),
    side this res ->
    getResponseStatus this (res_data res) = Normal status ->
    ToString status = "0" ->
    getResponseData this (res_data res) = Normal data ->
    run (interceptors.response_success env this res)
    = (Normal (Fulfilled data),
       loading_calls (res_config res) (loadingCancelHanlder this)).

(** C2 as it is worded: no side condition. *)
Definition resolves_with_payload_as_stated : Prop :=
  resolves_with_payload_under (fun _ _ => True).

(** A client whose message accessor looks into a nested object,
    [r => r.error.msg], which successful bodies do not carry. *)
Definition client_nested_message : VeryAxios :=
  constructor
    (Options VUndefined VUndefined None None VUndefined VUndefined
       None
       (Some (fun response =>
                match get_prop response "error" with
                | Normal error => get_prop error "msg"
                | Throw e => Throw e
                end))
       None)
    None.

(** A client whose language the catalog does not have. *)
Definition client_french : VeryAxios :=
  constructor
    (Options VUndefined VUndefined None (Some "fr") VUndefined VUndefined
       None None None)
    None.

(** A client for a backend that signals failure by the HTTP status alone:
    the status accessor is constantly 0 and the payload is the body itself. *)
Definition client_reading_body : VeryAxios :=
  constructor
    (Options VUndefined VUndefined None None VUndefined VUndefined
       (Some (fun _ => Normal (VNum 0))) None
       (Some (fun response => Normal response)))
    None.

(** A 2xx response whose JSON body is the number 0. *)
Definition zero_body : response := Response ∅ 200 (VNum 0).

(** A successful business response to a request that carried the loading
    flag. *)
Definition ok_response : response :=
  Response {[ "veryAxiosConfig" := VObj {[ "loading" := VBool true ]} ]} 200
    (VObj {[ "errno" := VNum 0; "data" := VStr "payload" ]}).

(** C3 under a side condition on the instance and the response. *)
Definition fails_with_message_under (side : VeryAxios -> response -> Prop)
  : Prop :=
  forall (env : environment) (o : options)
         (axiosConfig : option (gmap string value)) (res : response)
         (status m : value),
    side (constructor o axiosConfig) res ->
    getResponseStatus (constructor o axiosConfig) (res_data res) = Normal status ->
    ToString status <> "0" ->
    getResponseMessage (constructor o axiosConfig) (res_data res) = Normal m ->
    fst (run (interceptors.response_success env (constructor o axiosConfig) res))
    = Normal (Rejected
                (JS.or m (catalog (lang (constructor o axiosConfig)) "DEFAULT"))).

(** C3 as it is worded: no side condition. *)
Definition fails_with_message_as_stated : Prop :=
  fails_with_message_under (fun _ _ => True).

(** A business failure that carries no message. *)
Definition silent_failure : response :=
  Response ∅ 200 (VObj {[ "errno" := VNum 1 ]}).

(** A 2xx response with an empty body, as axios delivers it. *)
Definition empty_body : response := Response ∅ 200 (VStr "").

(** The scenario of the specification: language zh-cn, business status "1",
    message field "自定义错误". *)
Definition custom_error : response :=
  Response ∅ 200
    (VObj {[ "errno" := VStr "1"; "errmsg" := VStr "自定义错误" ]}).



(** Options that enable tipping in English and register both loading
    callbacks. *)
Definition tipping_loading_options : options :=
  Options (VBool true) (VFun (Callback "tipFn")) None (Some "en")
    (VFun (Callback "loadingHandler")) (VFun (Callback "loadingCancelHanlder"))
    None None None.

(** A transport on which the request is cancelled before it is answered. *)
Definition net_cancelled : network := fun _ => Aborted "Request cancelled".


(** Options that register both loading callbacks. *)
Definition loading_options : options :=
  Options VUndefined VUndefined None None
    (VFun (Callback "loadingHandler")) (VFun (Callback "loadingCancelHanlder"))
    None None None.

(** A request sent with the loading flag that got no response. *)
Definition timeout_failure : error :=
  Error {[ "veryAxiosConfig" := VObj {[ "loading" := VBool true ]} ]}
    None true "timeout of 20000ms exceeded".

(** Options that enable tipping under the language [l]. *)
Definition tipping_options (l : string) : options :=
  Options (VBool true) (VFun (Callback "tipFn")) None (Some l)
    VUndefined VUndefined None None None.

(** The server answered 500. *)
Definition server_failure : error :=
  Error ∅ (Some (Response ∅ 500 VNull)) true "Request failed with status code 500".

(** The server answered 418, a code the catalog does not list. *)
Definition teapot_failure : error :=
  Error ∅ (Some (Response ∅ 418 VNull)) true "Request failed with status code 418".

(** The keys of a language's table. *)
Definition catalog_keys : gset string :=
  {[ "DEFAULT"; "OFFLINE"; "400"; "401"; "403"; "404"; "405"; "413"; "414";
     "500"; "502"; "504" ]}.

(** C6 as it is worded: the scenario says nothing of connectivity. *)
Definition catalog_and_404_as_stated : Prop :=
  own_keys ERROR_MESSAGE_MAPS = {[ "zh-cn"; "en" ]}
  /\ own_keys (VObj zh_cn) = catalog_keys
  /\ own_keys (VObj en) = catalog_keys
  /\ forall (env : environment) (o : options)
            (axiosConfig : option (gmap string value)) (error : error)
            (response : response) (name : string),
       lang (constructor o axiosConfig) = "en" ->
       truthy (tip (constructor o axiosConfig)) = true ->
       tipFn (constructor o axiosConfig) = VFun (Callback name) ->
       err_response error = Some response ->
       res_status response = 404%Z ->
       exists before,
         snd (run (interceptors.response_error env (constructor o axiosConfig) error))
         = before ++ [Call name [VStr "Not Found"]].

(** A transport that answers 200 with a successful business body. *)
Definition net_ok : network :=
  fun _ => Answer 200 (VObj {[ "errno" := VNum 0; "data" := VStr "payload" ]}).

(** A transport that is down: the request is sent, no response arrives. *)
Definition net_down : network :=
  fun _ => Failure None true "Network Error".

(** The per-call options [{ loading: true }]. *)
Definition loading_on : value := VObj {[ "loading" := VBool true ]}.

(** An instance whose [tipFn] was unset after construction: the stored gate
    is still on. *)
Definition client_without_tipFn : VeryAxios :=
  let this := constructor (tipping_options "zh-cn") None in
  {| defaultAxiosConfig := defaultAxiosConfig this;
     tip := tip this;
     tipFn := VUndefined;
     errorHandlers := errorHandlers this;
     lang := lang this;
     loadingHandler := loadingHandler this;
     loadingCancelHanlder := loadingCancelHanlder this;
     getResponseStatus := getResponseStatus this;
     getResponseMessage := getResponseMessage this;
     getResponseData := getResponseData this;
     config := config this |}.

(** ** Shapes of computations *)

(** The trace only grows, by events that satisfy [P]. *)
Definition grows (P : event -> Prop) {A} (m : M A) : Prop :=
  forall w, exists evs, trace (snd (m w)) = trace w ++ evs /\ Forall P evs.

(** The same, and the promise is left alone. *)
Definition calm (P : event -> Prop) {A} (m : M A) : Prop :=
  forall w, exists evs,
    snd (m w) = World (trace w ++ evs) (promise w) /\ Forall P evs.

(** A settled promise stays as it is. *)
Definition sticky {A} (m : M A) : Prop :=
  forall w, promise w <> Pending -> promise (snd (m w)) = promise w.

(** Returning normally leaves the promise settled. *)
Definition finishes {A} (m : M A) : Prop :=
  forall w a w', m w = (Normal a, w') -> promise w' <> Pending.

(** An invocation of the value [f]. *)
Definition call_of (f : value) (e : event) : Prop :=
  exists args, calls f args = [e].

(** An invocation of the tip function or of a registered error handler. *)
Definition tip_or_handler (this : VeryAxios) (e : event) : Prop :=
  call_of (tipFn this) e
  \/ exists k f, errorHandlers this !! k = Some f /\ call_of (VFun f) e.

(** The config the interceptors and the transport see for a call of
    [fetch]: the call's config over the instance's. *)
Definition request_config (this : VeryAxios) (type : verb) (path : string)
  (param options : value) : gmap string value :=
  method_config type path (default_to (VObj ∅) param) (default_to (VObj ∅) options)
  ∪ config this.

(** The per-call options of [FORMDATA] seen as options of [POST]. *)
Definition multipart_options : value :=
  VObj {[ "headers" :=
            VObj {[ "content-type" := VStr "multipart/form-data;charset=UTF-8" ]} ]}.

(** The default accessors throw on the body [null]. *)
Definition null_body : response := Response ∅ 200 VNull.

(** A body whose [errno] is there and whose payload cannot be read: the data
    accessor looks into a property of a missing object. *)
Definition client_reading_deep : VeryAxios :=
  constructor
    (Options (VBool true) (VFun (Callback "tipFn")) None None VUndefined VUndefined
       None None
       (Some (fun response =>
                match get_prop response "result" with
                | Normal result => get_prop result "rows"
                | Throw e => Throw e
                end)))
    None.

(** ** Basic facts *)

Section Basics.

Lemma world_eta w : World (trace w) (promise w) = w.
Proof. by destruct w. Qed.

Lemma bind_run {A B} (m : M A) (k : A -> M B) w a w' :
  m w = (Normal a, w') -> (m ≫= k) w = k a w'.
Proof. intros H. unfold mbind, M_bind, bind. by rewrite H. Qed.

Lemma bind_assoc {A B C} (m : M A) (k : A -> M B) (k' : B -> M C) w :
  ((m ≫= k) ≫= k') w = (m ≫= (fun a => k a ≫= k')) w.
Proof. unfold mbind, M_bind, bind. by destruct (m w) as [[a|e] w']. Qed.

Lemma catalog_maps l :
  supported l ->
  exists maps, get_prop ERROR_MESSAGE_MAPS l = Normal (VObj maps)
               /\ (l = "zh-cn" /\ maps = zh_cn \/ l = "en" /\ maps = en).
Proof. intros [-> | ->]; eexists; split; try reflexivity; auto. Qed.

Lemma zh_cn_truthy : map_Forall (fun _ v => truthy v = true) zh_cn.
Proof.
  unfold zh_cn.
  repeat (apply map_Forall_insert_2; [reflexivity|]).
  apply map_Forall_empty.
Qed.

Lemma en_truthy : map_Forall (fun _ v => truthy v = true) en.
Proof.
  unfold en.
  repeat (apply map_Forall_insert_2; [reflexivity|]).
  apply map_Forall_empty.
Qed.

(** Every entry of the catalog is a non-empty string. *)
Lemma catalog_entry_truthy l maps k v :
  (l = "zh-cn" /\ maps = zh_cn \/ l = "en" /\ maps = en) ->
  maps !! k = Some v -> truthy v = true.
Proof.
  intros [[_ ->] | [_ ->]] H.
  - exact (zh_cn_truthy k v H).
  - exact (en_truthy k v H).
Qed.

Lemma loading_run config w :
  interceptors.loading config w = (Normal (loading_flag config), w).
Proof.
  unfold interceptors.loading, loading_flag, field.
  destruct (config !! "veryAxiosConfig") as [v|]; simpl; [|done].
  destruct v as [| |[] |n |s |f |o |]; simpl; try done.
  - by destruct (n =? 0)%Z.
  - by destruct (String.eqb s "").
Qed.

Lemma call_run f args w :
  is_function f = true ->
  call f args w = (Normal tt, World (trace w ++ calls f args) (promise w)).
Proof.
  destruct f as [| | | | |[|name]| |]; try discriminate; intros _; simpl.
  - by rewrite app_nil_r, world_eta.
  - done.
Qed.

(** A loading callback behind its gate. *)
Lemma loading_step config handler w :
  when (interceptors.gate (loading_flag config) handler) (call handler []) w
  = (Normal tt, World (trace w ++ loading_calls config handler) (promise w)).
Proof.
  unfold interceptors.gate, loading_calls, JS.and.
  destruct (truthy (loading_flag config)) eqn:Hl; simpl.
  - destruct (truthy handler) eqn:Hh; simpl.
    + destruct (is_function handler) eqn:Hf; simpl.
      * by apply call_run.
      * by rewrite app_nil_r, world_eta.
    + rewrite Hh; simpl.
      assert (is_function handler = false) as ->
        by (destruct handler; simpl in Hh; done).
      by rewrite app_nil_r, world_eta.
  - rewrite !Hl; simpl. by rewrite app_nil_r, world_eta.
Qed.

(** Where the identifier [errorHandlers] is unresolvable, the handler
    registered for a status is never invoked. *)
Lemma run_handler_unresolved env h w :
  errorHandlers_global env = None ->
  interceptors.run_handler env h w = (Normal tt, w).
Proof.
  intros H. unfold interceptors.run_handler, typeof_errorHandlers.
  rewrite H. simpl. by rewrite andb_false_r.
Qed.

(** The handlers are functions: running one never throws, and leaves the
    promise as it is. *)
Lemma run_handler_run env this status w :
  interceptors.run_handler env (interceptors.handler_for this status) w
  = (Normal tt, World (trace w ++ handler_calls env this status) (promise w)).
Proof.
  unfold interceptors.run_handler, interceptors.handler_for, handler_calls.
  destruct (errorHandlers this !! ToString status) as [f|].
  - destruct (String.eqb (typeof_errorHandlers env) "function").
    + by apply (call_run (VFun f)).
    + simpl. by rewrite app_nil_r, world_eta.
  - simpl. by rewrite app_nil_r, world_eta.
Qed.

Lemma handler_calls_unresolved env this status :
  errorHandlers_global env = None -> handler_calls env this status = [].
Proof.
  intros H. unfold handler_calls, typeof_errorHandlers. rewrite H.
  by destruct (errorHandlers this !! ToString status).
Qed.

Lemma handler_calls_unregistered env this status :
  errorHandlers this !! ToString status = None ->
  handler_calls env this status = [].
Proof. intros H. unfold handler_calls. by rewrite H. Qed.

(** The gate the constructor stores: truthy only with a function. *)
Lemma constructor_tip o axiosConfig :
  truthy (tip (constructor o axiosConfig)) = true ->
  is_function (tipFn (constructor o axiosConfig)) = true.
Proof.
  cbn [tip tipFn constructor]. unfold JS.and, is_function.
  destruct (truthy (default_to (VBool true) (opt_tip o))) eqn:Ht.
  - destruct (truthy (opt_tipFn o)) eqn:Hf; [done|].
    rewrite Hf. discriminate.
  - rewrite !Ht. discriminate.
Qed.

End Basics.

(** ** The success interceptor, step by step *)

Section Success.

Variables (env : environment) (this : VeryAxios) (res : response).
Variables (status m data : value).

Hypothesis tip_callable :
  truthy (tip this) = true -> is_function (tipFn this) = true.
Hypothesis status_read : getResponseStatus this (res_data res) = Normal status.
Hypothesis message_read : getResponseMessage this (res_data res) = Normal m.
Hypothesis data_read : getResponseData this (res_data res) = Normal data.
Hypothesis message_resolves : truthy m = true \/ supported (lang this).

Lemma message_run w :
  (if truthy m then mret m
   else maps ← lift (get_prop ERROR_MESSAGE_MAPS (lang this));
        lift (get_prop maps "DEFAULT")) w
  = (Normal (business_message this m), w).
Proof.
  unfold business_message, JS.or, catalog.
  destruct (truthy m) eqn:Ht; [done|].
  destruct message_resolves as [|Hlang]; [done|].
  destruct (catalog_maps _ Hlang) as (maps & -> & _).
  done.
Qed.

Lemma guard_run t :
  when (negb (truthy (res_data res))) (resolve VUndefined) (World t Pending)
  = (Normal tt, World t (after_guard res)).
Proof. unfold after_guard. by destruct (truthy (res_data res)). Qed.

Lemma tip_step message w :
  when (truthy (tip this)) (call (tipFn this) [message]) w
  = (Normal tt, World (trace w ++ tip_calls this message) (promise w)).
Proof.
  unfold tip_calls. destruct (truthy (tip this)) eqn:Ht; simpl.
  - by apply call_run, tip_callable.
  - by rewrite app_nil_r, world_eta.
Qed.

Lemma response_success_run w :
  interceptors.response_success env this res w
  = if String.eqb (ToString status) "0"
    then (Normal (settle_pure (Fulfilled data) (after_guard res)),
          World (trace w
                 ++ loading_calls (res_config res) (loadingCancelHanlder this))
                (promise w))
    else (Normal (settle_pure (Rejected (business_message this m)) (after_guard res)),
          World (trace w
                 ++ loading_calls (res_config res) (loadingCancelHanlder this)
                 ++ tip_calls this (business_message this m)
                 ++ handler_calls env this status)
                (promise w)).
Proof.
  unfold interceptors.response_success, interceptors.executor.
  erewrite bind_run; [|apply loading_run].
  erewrite bind_run; [|apply loading_step].
  unfold new_promise. cbn [trace promise].
  erewrite bind_run; [|apply guard_run].
  erewrite bind_run; [|unfold lift; by rewrite status_read].
  erewrite bind_run; [|unfold lift; by rewrite message_read].
  erewrite bind_run; [|apply message_run].
  erewrite bind_run; [|unfold lift; by rewrite data_read].
  destruct (String.eqb (ToString status) "0") eqn:Hs; cbn [negb when].
  - erewrite bind_run; [|reflexivity].
    unfold resolve, settle, after_guard. cbn [trace promise].
    by destruct (truthy (res_data res)).
  - rewrite bind_assoc.
    erewrite bind_run; [|apply tip_step].
    rewrite bind_assoc.
    erewrite bind_run; [|apply run_handler_run].
    unfold mbind, M_bind, bind.
    unfold reject, resolve, settle, after_guard. cbn [trace promise].
    destruct (truthy (res_data res)); cbn; by rewrite ?app_assoc.
Qed.

(** A response whose status reads "0": the tip gate is not consulted. *)
Lemma response_success_ok_run w :
  String.eqb (ToString status) "0" = true ->
  interceptors.response_success env this res w
  = (Normal (settle_pure (Fulfilled data) (after_guard res)),
     World (trace w ++ loading_calls (res_config res) (loadingCancelHanlder this))
           (promise w)).
Proof.
  intros Hs.
  unfold interceptors.response_success, interceptors.executor.
  erewrite bind_run; [|apply loading_run].
  erewrite bind_run; [|apply loading_step].
  unfold new_promise. cbn [trace promise].
  erewrite bind_run; [|apply guard_run].
  erewrite bind_run; [|unfold lift; by rewrite status_read].
  erewrite bind_run; [|unfold lift; by rewrite message_read].
  erewrite bind_run; [|apply message_run].
  erewrite bind_run; [|unfold lift; by rewrite data_read].
  rewrite Hs. cbn [negb when].
  erewrite bind_run; [|reflexivity].
  unfold resolve, settle, after_guard. cbn [trace promise].
  by destruct (truthy (res_data res)).
Qed.

(** A business failure with the gate on and a [tipFn] that is not a function:
    the call is made all the same, and throws. *)
Lemma response_success_uncallable_run w :
  String.eqb (ToString status) "0" = false ->
  truthy (tip this) = true ->
  is_function (tipFn this) = false ->
  interceptors.response_success env this res w
  = (Normal (settle_pure (Rejected VTypeError) (after_guard res)),
     World (trace w ++ loading_calls (res_config res) (loadingCancelHanlder this))
           (promise w)).
Proof.
  clear tip_callable. intros Hs Ht Hf.
  unfold interceptors.response_success, interceptors.executor.
  erewrite bind_run; [|apply loading_run].
  erewrite bind_run; [|apply loading_step].
  unfold new_promise. cbn [trace promise].
  assert (Hthrow : forall A (k : unit -> M A) message w0,
    ((when (truthy (tip this)) (call (tipFn this) [message])) ≫= k) w0
    = (Throw VTypeError, w0)).
  { intros A k message w0. rewrite Ht. unfold mbind, M_bind, bind. cbn [when].
    destruct (tipFn this) as [| | | | |f| |]; try done. }
  erewrite bind_run; [|apply guard_run].
  erewrite bind_run; [|unfold lift; by rewrite status_read].
  erewrite bind_run; [|unfold lift; by rewrite message_read].
  erewrite bind_run; [|apply message_run].
  erewrite bind_run; [|unfold lift; by rewrite data_read].
  rewrite Hs. cbn [negb when].
  unfold mbind at 1, M_bind at 1, bind at 1. rewrite Hthrow.
  unfold after_guard. cbn [trace promise].
  by destruct (truthy (res_data res)).
Qed.

End Success.

(** ** The error interceptor, step by step *)

Section Failure.

Variables (env : environment) (this : VeryAxios) (error : error).

Hypothesis tip_callable :
  truthy (tip this) = true -> is_function (tipFn this) = true.
Hypothesis lang_supported : supported (lang this).

(** Lines 122-141: the message, and the handler run on the way. *)
Lemma errmsg_run maps w :
  get_prop ERROR_MESSAGE_MAPS (lang this) = Normal (VObj maps) ->
  (lang this = "zh-cn" /\ maps = zh_cn \/ lang this = "en" /\ maps = en) ->
  match err_response error with
  | Some response =>
      let status := VNum (res_status response) in
      errmsg ← (if negb (onLine env)
                then lift (get_prop (VObj maps) "OFFLINE")
                else entry ← lift (get_prop (VObj maps) (ToString status));
                     mret (JS.or entry (VStr (err_message error))));
      interceptors.run_handler env (interceptors.handler_for this status);;
      mret errmsg
  | None =>
      if err_request error then mret (VStr (err_message error))
      else mret (VStr (err_message error))
  end w
  = (Normal (resolved_message env (lang this) error),
     World (trace w ++ (failure_handler_calls env this error)) (promise w)).
Proof.
  intros Hmaps Hwhich.
  unfold resolved_message, failure_handler_calls, catalog. rewrite Hmaps.
  destruct (err_response error) as [response|].
  - cbv zeta. cbn [get_prop ToString].
    destruct (onLine env); cbn [negb].
    + erewrite bind_run; [|reflexivity].
      erewrite bind_run; [|apply run_handler_run].
      f_equal. f_equal.
      destruct (maps !! pretty (res_status response)) as [v|] eqn:Hv; [|done].
      pose proof (catalog_entry_truthy _ _ _ _ Hwhich Hv) as Ht.
      unfold JS.or. simpl. rewrite Ht. by destruct v.
    + erewrite bind_run; [|reflexivity].
      erewrite bind_run; [|apply run_handler_run].
      done.
  - rewrite app_nil_r, world_eta. by destruct (err_request error).
Qed.

Lemma response_error_run w :
  interceptors.response_error env this error w
  = (Normal VUndefined,
     World (trace w
            ++ loading_calls (err_config error) (loadingCancelHanlder this)
            ++ (failure_handler_calls env this error)
            ++ tip_calls this (resolved_message env (lang this) error))
           (promise w)).
Proof.
  unfold interceptors.response_error.
  destruct (catalog_maps _ lang_supported) as (maps & Hmaps & Hwhich).
  erewrite bind_run; [|apply loading_run].
  erewrite bind_run; [|apply loading_step].
  erewrite bind_run; [|unfold lift; by rewrite Hmaps].
  erewrite bind_run; [|reflexivity].
  erewrite bind_run; [|by apply errmsg_run].
  erewrite bind_run; [|by apply tip_step].
  cbn. by rewrite !app_assoc.
Qed.

(** A transport failure with the gate on and a [tipFn] that is not a
    function: the call is made all the same, and throws. *)
Lemma response_error_uncallable_run w :
  truthy (tip this) = true ->
  is_function (tipFn this) = false ->
  interceptors.response_error env this error w
  = (Throw VTypeError,
     World (trace w
            ++ loading_calls (err_config error) (loadingCancelHanlder this)
            ++ (failure_handler_calls env this error))
           (promise w)).
Proof.
  clear tip_callable. intros Ht Hf.
  unfold interceptors.response_error.
  destruct (catalog_maps _ lang_supported) as (maps & Hmaps & Hwhich).
  erewrite bind_run; [|apply loading_run].
  erewrite bind_run; [|apply loading_step].
  erewrite bind_run; [|unfold lift; by rewrite Hmaps].
  erewrite bind_run; [|reflexivity].
  erewrite bind_run; [|by apply errmsg_run].
  rewrite Ht. unfold mbind, M_bind, bind. cbn [when trace promise].
  rewrite app_assoc.
  destruct (tipFn this) as [| | | | |f| |]; try done.
Qed.

End Failure.

(** ** The claims *)

(** *** C1: status-specific error handlers *)

(** C1 (the code departs from the claim).  With a handler registered under
    the business status 1 and one under the HTTP status 404, in a browser
    where no global [errorHandlers] exists, a business failure with status 1
    and a transport failure answered 404 each invoke the tip function once
    with the resolved message, and no handler at all: the guard of lines 108
    and 131 tests [typeof errorHandlers], not [typeof errorHandler]. *)
Theorem handlers_not_invoked :
  run (interceptors.response_success browser client_with_handlers business_failure_1)
  = (Normal (Rejected (VStr "boom")), [Call "tipFn" [VStr "boom"]])
  /\ run (interceptors.response_error browser client_with_handlers not_found_failure)
     = (Normal VUndefined, [Call "tipFn" [VStr "接口或资源不存在"]]).
Proof. split; vm_compute; reflexivity. Qed.

(** *** C2: a response whose business status is "0" *)

(** What the code does with the body [0]. *)
Example zero_body_resolves_undefined :
  run (interceptors.response_success browser client_reading_body zero_body)
  = (Normal (Fulfilled VUndefined), []).
Proof. vm_compute. reflexivity. Qed.

(** C2, counterexample.  The body [0] is falsy: line 99 resolves the promise
    with no value before the status is read, so the later [resolve(data)] is
    ignored and the payload, the number 0, is lost.  That alone refutes the
    claim.  The three other cases show that none of the conditions of the
    amended claim can be dropped, each holding the two others: the falsy
    body; a message accessor that throws on a truthy body, which rejects the
    promise with its exception before the status is examined (lines 101-105);
    and a falsy message under a language the catalog does not have, where
    reading the DEFAULT entry throws (line 102). *)
Lemma resolves_with_payload_counterexample :
  ~ resolves_with_payload_as_stated
  /\ ~ resolves_with_payload_under
        (fun this res => message_read this res /\ message_resolved this res)
  /\ ~ resolves_with_payload_under
        (fun this res => body_present this res /\ message_resolved this res)
  /\ ~ resolves_with_payload_under
        (fun this res => body_present this res /\ message_read this res).
Proof.
  repeat split.
  - intros H.
    specialize (H browser client_reading_body zero_body (VNum 0) (VNum 0)
                  I eq_refl eq_refl eq_refl).
    vm_compute in H. discriminate H.
  - intros H.
    assert (Hside : message_read client_reading_body zero_body
                    /\ message_resolved client_reading_body zero_body).
    { split; [by exists VUndefined|]. intros m _. right. by left. }
    specialize (H browser client_reading_body zero_body (VNum 0) (VNum 0)
                  Hside eq_refl eq_refl eq_refl).
    vm_compute in H. discriminate H.
  - intros H.
    assert (Hside : body_present client_nested_message ok_response
                    /\ message_resolved client_nested_message ok_response).
    { split; [reflexivity|]. intros m Hm. vm_compute in Hm. discriminate Hm. }
    specialize (H browser client_nested_message ok_response (VNum 0)
                  (VStr "payload") Hside eq_refl eq_refl eq_refl).
    vm_compute in H. discriminate H.
  - intros H.
    assert (Hside : body_present client_french ok_response
                    /\ message_read client_french ok_response).
    { split; [reflexivity|]. by exists VUndefined. }
    specialize (H browser client_french ok_response (VNum 0)
                  (VStr "payload") Hside eq_refl eq_refl eq_refl).
    vm_compute in H. discriminate H.
Qed.

(** C2 (amended).  For every 2xx response with a truthy body whose business
    status, read by the injected status accessor, compares as a string equal
    to "0", provided the message accessor returns on that body and either
    the message it reads is truthy or the client's language is one of the
    catalog's, the promise is fulfilled with the payload read by the injected
    data accessor, and the only callback invoked is the loading-stop callback
    of a request that asked for it: neither the tip function nor a handler. *)
Theorem resolves_with_payload
  (env : environment) (this : VeryAxios) (res : response)
  (status m data : value) (w : world) :
  truthy (res_data res) = true ->
  getResponseStatus this (res_data res) = Normal status ->
  ToString status = "0" ->
  getResponseMessage this (res_data res) = Normal m ->
  truthy m = true \/ supported (lang this) ->
  getResponseData this (res_data res) = Normal data ->
  interceptors.response_success env this res w
  = (Normal (Fulfilled data),
     World (trace w ++ loading_calls (res_config res) (loadingCancelHanlder this))
           (promise w)).
Proof.
  intros Hbody Hstatus Hzero Hm Hmessage Hdata.
  rewrite (response_success_ok_run env this res status m data
             Hstatus Hm Hdata Hmessage).
  - unfold after_guard. by rewrite Hbody.
  - by rewrite Hzero.
Qed.

Lemma resolves_with_payload_witness :
  interceptors.response_success browser client_with_handlers ok_response start
  = (Normal (Fulfilled (VStr "payload")), World [] Pending).
Proof.
  rewrite (resolves_with_payload browser client_with_handlers ok_response
             (VNum 0) VUndefined (VStr "payload") start);
    try reflexivity.
  right. by left.
Defined.

(** *** C3: a response whose business status is not "0" *)

(** What the code does with an empty body: the promise is fulfilled with no
    value, and with tipping enabled the DEFAULT message is rendered. *)
Example empty_body_resolves_undefined :
  run (interceptors.response_success browser (constructor no_options None)
         empty_body)
  = (Normal (Fulfilled VUndefined), [])
  /\ run (interceptors.response_success browser
            (constructor (tipping_options "zh-cn") None) empty_body)
     = (Normal (Fulfilled VUndefined), [Call "tipFn" [VStr "接口请求失败"]]).
Proof. split; vm_compute; reflexivity. Qed.

(** C3, counterexample.  With the default accessors the empty body reads the
    status [undefined], which is not "0"; but line 99 has resolved the
    promise already, and the [reject(message)] of line 109 is ignored: the
    operation succeeds with no value.  That alone refutes the claim.  The
    three other cases show that none of the conditions of the amended claim
    can be dropped, each holding the two others: the falsy body; a data
    accessor that throws on a truthy body, which rejects the promise with its
    exception, not with the message (line 103 runs before the status is
    examined); and a falsy message under a language the catalog does not
    have, where reading the DEFAULT entry throws (line 102). *)
Lemma fails_with_message_counterexample :
  ~ fails_with_message_as_stated
  /\ ~ fails_with_message_under
        (fun this res => data_read this res /\ message_resolved this res)
  /\ ~ fails_with_message_under
        (fun this res => body_present this res /\ message_resolved this res)
  /\ ~ fails_with_message_under
        (fun this res => body_present this res /\ data_read this res).
Proof.
  assert (Hne : ToString VUndefined <> "0") by discriminate.
  assert (Hne1 : ToString (VNum 1) <> "0") by discriminate.
  repeat split.
  - intros H.
    specialize (H browser no_options None empty_body VUndefined VUndefined
                  I eq_refl Hne eq_refl).
    vm_compute in H. discriminate H.
  - intros H.
    assert (Hside : data_read (constructor no_options None) empty_body
                    /\ message_resolved (constructor no_options None) empty_body).
    { split; [by exists VUndefined|]. intros m _. right. by left. }
    specialize (H browser no_options None empty_body VUndefined VUndefined
                  Hside eq_refl Hne eq_refl).
    vm_compute in H. discriminate H.
  - intros H.
    assert (Hside : body_present client_reading_deep business_failure_1
                    /\ message_resolved client_reading_deep business_failure_1).
    { split; [reflexivity|]. intros m _. right. by left. }
    specialize (H browser _ None business_failure_1 (VNum 1) (VStr "boom")
                  Hside eq_refl Hne1 eq_refl).
    vm_compute in H. discriminate H.
  - intros H.
    assert (Hside : body_present client_french silent_failure
                    /\ data_read client_french silent_failure).
    { split; [reflexivity|]. by exists VUndefined. }
    specialize (H browser _ None silent_failure (VNum 1) VUndefined
                  Hside eq_refl Hne1 eq_refl).
    vm_compute in H. discriminate H.
Qed.

(** C3 (amended).  For every client built by the constructor and every 2xx
    response with a truthy body whose business status, compared as a string,
    is not "0", provided the message and data accessors return on that body
    and either the message read is truthy or the client's language is one of
    the catalog's, the promise is rejected with the resolved message: the one
    read by the injected message accessor, or the catalog's DEFAULT entry of
    the client's language when that one is falsy. *)
Theorem fails_with_message
  (env : environment) (o : options) (axiosConfig : option (gmap string value))
  (res : response) (status m data : value) (w : world) :
  truthy (res_data res) = true ->
  getResponseStatus (constructor o axiosConfig) (res_data res) = Normal status ->
  ToString status <> "0" ->
  getResponseMessage (constructor o axiosConfig) (res_data res) = Normal m ->
  truthy m = true \/ supported (lang (constructor o axiosConfig)) ->
  getResponseData (constructor o axiosConfig) (res_data res) = Normal data ->
  fst (interceptors.response_success env (constructor o axiosConfig) res w)
  = Normal (Rejected
              (if truthy m then m
               else catalog (lang (constructor o axiosConfig)) "DEFAULT")).
Proof.
  intros Hbody Hstatus Hne Hm Hmessage Hdata.
  rewrite (response_success_run env _ res status m data
             (constructor_tip o axiosConfig) Hstatus Hm Hdata Hmessage).
  destruct (String.eqb (ToString status) "0") eqn:Hs.
  - by apply String.eqb_eq in Hs.
  - unfold after_guard. by rewrite Hbody.
Qed.

Lemma fails_with_message_witness :
  fst (interceptors.response_success browser (constructor no_options None)
         custom_error start)
  = Normal (Rejected (VStr "自定义错误")).
Proof.
  apply (fails_with_message browser no_options None custom_error
           (VStr "1") (VStr "自定义错误") VUndefined start);
    try reflexivity.
  - discriminate.
  - by left.
Defined.

(** *** C4: what the error interceptor does *)

(** What the code does for a request with the loading flag that timed out. *)
Example timeout_stops_loading :
  run (interceptors.response_error browser (constructor loading_options None)
         timeout_failure)
  = (Normal VUndefined, [Call "loadingCancelHanlder" []]).
Proof. vm_compute. reflexivity. Qed.




(** *** C5: the message of a transport failure *)

(** C5 (the code departs from the claim).  A failure that arises before the
    request is sent reaches the interceptor as a reason without config: the
    [Cancel] of a cancelled request, an exception thrown while the request
    is being set up.  On it no message is resolved and nothing is tipped,
    where lines 138-140 mean to use the raw message: line 118 reads
    [config.veryAxiosConfig] of a config that is not there, and throws.
    Through [GET] with the loading flag, loading is started and never
    stopped, and the promise is rejected with the TypeError. *)
Theorem setup_failure_throws :
  run (interceptors.rejected browser (constructor tipping_loading_options None)
         (Bare "Request cancelled"))
  = (Throw VTypeError, [])
  /\ run (GET browser (constructor tipping_loading_options None) net_cancelled
            "/x" VUndefined loading_on)
     = (Normal (Rejected VTypeError), [Call "loadingHandler" []]).
Proof. split; vm_compute; reflexivity. Qed.

(** X16.  For every client built by the constructor with tipping enabled and
    a language of the catalog, and every failure that carries the request's
    config, the message handed to the tip function, the last event of the
    interceptor, follows the priority: with a server response, the catalog's
    OFFLINE entry when the client is offline, whatever the status code, else
    the catalog entry of the status code, else the raw failure message;
    without a response, whether or not the request was sent, the raw failure
    message. *)
Theorem message_by_priority
  (env : environment) (o : options) (axiosConfig : option (gmap string value))
  (error : error) (name : string) (w : world) :
  supported (lang (constructor o axiosConfig)) ->
  truthy (tip (constructor o axiosConfig)) = true ->
  tipFn (constructor o axiosConfig) = VFun (Callback name) ->
  exists before,
    interceptors.response_error env (constructor o axiosConfig) error w
    = (Normal VUndefined,
       World (trace w ++ before
              ++ [Call name
                    [match err_response error with
                     | Some response =>
                         if onLine env then
                           match catalog (lang (constructor o axiosConfig))
                                   (pretty (res_status response)) with
                           | VUndefined => VStr (err_message error)
                           | entry => entry
                           end
                         else catalog (lang (constructor o axiosConfig)) "OFFLINE"
                     | None => VStr (err_message error)
                     end]])
             (promise w)).
Proof.
  intros Hlang Htip Hfn.
  exists (loading_calls (err_config error)
            (loadingCancelHanlder (constructor o axiosConfig))
          ++ failure_handler_calls env (constructor o axiosConfig) error).
  rewrite (response_error_run env _ error (constructor_tip o axiosConfig) Hlang).
  unfold tip_calls. rewrite Htip, Hfn. cbn [calls].
  unfold resolved_message. by rewrite <- !app_assoc.
Qed.

Lemma message_by_priority_witness :
  exists before,
    interceptors.response_error (Environment false None)
      (constructor (tipping_options "en") None) server_failure start
    = (Normal VUndefined,
       World ([] ++ before ++ [Call "tipFn" [VStr "Network is Offline"]]) Pending).
Proof.
  destruct (message_by_priority (Environment false None) (tipping_options "en")
              None server_failure "tipFn" start
              (or_intror eq_refl) eq_refl eq_refl) as [before H].
  exists before. exact H.
Defined.

(** The three other cases of the priority, evaluated. *)
Example message_of_listed_status :
  run (interceptors.response_error browser (constructor (tipping_options "en") None)
         server_failure)
  = (Normal VUndefined, [Call "tipFn" [VStr "Internal Server Error"]]).
Proof. vm_compute. reflexivity. Qed.

Example message_of_unlisted_status :
  run (interceptors.response_error browser (constructor (tipping_options "en") None)
         teapot_failure)
  = (Normal VUndefined, [Call "tipFn" [VStr "Request failed with status code 418"]]).
Proof. vm_compute. reflexivity. Qed.

Example message_without_response :
  run (interceptors.response_error browser (constructor (tipping_options "en") None)
         (Error ∅ None false "Network Error"))
  = (Normal VUndefined, [Call "tipFn" [VStr "Network Error"]]).
Proof. vm_compute. reflexivity. Qed.

(** *** C6: the catalog *)

(** What the code does with a 404 while offline. *)
Example offline_404 :
  run (interceptors.response_error (Environment false None)
         (constructor (tipping_options "en") None) not_found_failure)
  = (Normal VUndefined, [Call "tipFn" [VStr "Network is Offline"]]).
Proof. vm_compute. reflexivity. Qed.

(** C6, counterexample.  Offline, a failure answered 404 resolves to the
    OFFLINE entry (line 127), not to "Not Found". *)
Lemma catalog_and_404_counterexample : ~ catalog_and_404_as_stated.
Proof.
  intros (_ & _ & _ & H).
  destruct (H (Environment false None) (tipping_options "en") None
              not_found_failure (Response ∅ 404 VNull) "tipFn"
              eq_refl eq_refl eq_refl eq_refl eq_refl) as [before Hbefore].
  vm_compute in Hbefore.
  destruct before as [|e [|e' before]]; simpl in Hbefore; discriminate Hbefore.
Qed.

(** C6 (amended).  The catalog has exactly the two languages zh-cn and en,
    each keyed exactly by DEFAULT, OFFLINE and the status codes 400, 401,
    403, 404, 405, 413, 414, 500, 502 and 504; and under language en, while
    the client is online, a transport failure answered 404 resolves to
    exactly "Not Found", whatever the body of the response. *)
Theorem catalog_and_404
  (env : environment) (o : options) (axiosConfig : option (gmap string value))
  (error : error) (response : response) (name : string) (w : world) :
  onLine env = true ->
  lang (constructor o axiosConfig) = "en" ->
  truthy (tip (constructor o axiosConfig)) = true ->
  tipFn (constructor o axiosConfig) = VFun (Callback name) ->
  err_response error = Some response ->
  res_status response = 404%Z ->
  own_keys ERROR_MESSAGE_MAPS = {[ "zh-cn"; "en" ]}
  /\ own_keys (VObj zh_cn) = catalog_keys
  /\ own_keys (VObj en) = catalog_keys
  /\ exists before,
       interceptors.response_error env (constructor o axiosConfig) error w
       = (Normal VUndefined,
          World (trace w ++ before ++ [Call name [VStr "Not Found"]]) (promise w)).
Proof.
  intros Honline Hlang Htip Hfn Hresponse Hstatus.
  repeat split; try (vm_compute; reflexivity).
  exists (loading_calls (err_config error)
            (loadingCancelHanlder (constructor o axiosConfig))
          ++ failure_handler_calls env (constructor o axiosConfig) error).
  rewrite (response_error_run env _ error (constructor_tip o axiosConfig))
    by (right; exact Hlang).
  unfold tip_calls. rewrite Htip, Hfn. cbn [calls].
  unfold resolved_message. rewrite Hresponse, Honline, Hstatus, Hlang.
  change (catalog "en" (pretty 404%Z)) with (VStr "Not Found").
  by rewrite <- !app_assoc.
Qed.

Lemma catalog_and_404_witness :
  exists before,
    interceptors.response_error browser (constructor (tipping_options "en") None)
      not_found_failure start
    = (Normal VUndefined,
       World ([] ++ before ++ [Call "tipFn" [VStr "Not Found"]]) Pending).
Proof.
  destruct (catalog_and_404 browser (tipping_options "en") None
              not_found_failure (Response ∅ 404 VNull) "tipFn" start
              eq_refl eq_refl eq_refl eq_refl eq_refl eq_refl)
    as (_ & _ & _ & before & H).
  exists before. exact H.
Defined.

(** *** C7: the transport configuration *)

(** C7.  After construction the client's transport configuration is the
    shallow merge of the user's configuration over the defaults (timeout
    20000, responseType json, a headers object with content-type
    application/json): a key of the user's configuration has the user's
    value, any other key has the value the defaults give it, if any. *)
Theorem config_is_shallow_merge
  (o : options) (axiosConfig : option (gmap string value)) (k : string) :
  config (constructor o axiosConfig) !! k
  = match default ∅ axiosConfig !! k with
    | Some v => Some v
    | None => defaultAxiosConfig (constructor o axiosConfig) !! k
    end
  /\ defaultAxiosConfig (constructor o axiosConfig)
     = {[ "timeout" := VNum 20000;
          "responseType" := VStr "json";
          "headers" := VObj {[ "content-type" := VStr "application/json" ]} ]}.
Proof.
  split; [|reflexivity].
  cbn [config defaultAxiosConfig constructor]. unfold spread.
  rewrite lookup_union.
  destruct (default ∅ axiosConfig !! k) as [v|]; [|by rewrite (left_id None _)].
  by destruct (default_config !! k).
Qed.

(** *** C8: the loading callbacks of the verb methods *)

(** C8 (the code departs from the claim).  With both loading callbacks
    registered and the per-call options [{ loading: true }], [POST], [PUT]
    and [DELETE] invoke neither callback, on success and on failure alike:
    they hand the options to axios as its config (for [DELETE], not even
    that: [axios.delete] takes its config second), while the interceptors
    read [config.veryAxiosConfig.loading].  [GET], which wraps the options in
    [veryAxiosConfig], invokes each callback once, on success and on
    failure. *)
Theorem loading_ignored_by_post_put_delete :
  run (POST browser (constructor loading_options None) net_ok "/x" (VObj ∅) loading_on)
  = (Normal (Fulfilled (VStr "payload")), [])
  /\ run (POST browser (constructor loading_options None) net_down "/x" (VObj ∅) loading_on)
     = (Normal (Fulfilled VUndefined), [])
  /\ run (PUT browser (constructor loading_options None) net_ok "/x" (VObj ∅) loading_on)
     = (Normal (Fulfilled (VStr "payload")), [])
  /\ run (DELETE browser (constructor loading_options None) net_ok "/x" (VObj ∅) loading_on)
     = (Normal (Fulfilled (VStr "payload")), [])
  /\ run (GET browser (constructor loading_options None) net_ok "/x" (VObj ∅) loading_on)
     = (Normal (Fulfilled (VStr "payload")),
        [Call "loadingHandler" []; Call "loadingCancelHanlder" []])
  /\ run (GET browser (constructor loading_options None) net_down "/x" (VObj ∅) loading_on)
     = (Normal (Fulfilled VUndefined),
        [Call "loadingHandler" []; Call "loadingCancelHanlder" []]).
Proof. repeat split; vm_compute; reflexivity. Qed.

(** *** C9: the tip gate *)

(** C9.  The gate the constructor stores is truthy exactly when the tip
    toggle (true when absent) is truthy and [tipFn] is a function.  Both the
    business-failure path and the transport-failure path decide on the stored
    field alone: for any state of the instance whose [tipFn] is a function,
    they invoke it once with the message when the stored gate is truthy and
    not at all otherwise; and when the stored gate is truthy while [tipFn] is
    not a function, they call it unchecked, which throws a TypeError. *)
Theorem tip_gate_is_stored
  (env : environment) (o : options) (axiosConfig : option (gmap string value))
  (this : VeryAxios) (res : response) (status m data : value) (error : error)
  (w : world) :
  getResponseStatus this (res_data res) = Normal status ->
  ToString status <> "0" ->
  getResponseMessage this (res_data res) = Normal m ->
  getResponseData this (res_data res) = Normal data ->
  supported (lang this) ->
  (truthy (tip (constructor o axiosConfig)) = true
   <-> truthy (default_to (VBool true) (opt_tip o)) = true
       /\ is_function (opt_tipFn o) = true)
  /\ tipFn (constructor o axiosConfig) = opt_tipFn o
  /\ (is_function (tipFn this) = true ->
      trace (snd (interceptors.response_success env this res w))
      = trace w
        ++ loading_calls (res_config res) (loadingCancelHanlder this)
        ++ (if truthy (tip this)
            then calls (tipFn this) [JS.or m (catalog (lang this) "DEFAULT")]
            else [])
        ++ handler_calls env this status
      /\ trace (snd (interceptors.response_error env this error w))
         = trace w
           ++ loading_calls (err_config error) (loadingCancelHanlder this)
           ++ failure_handler_calls env this error
           ++ (if truthy (tip this)
               then calls (tipFn this) [resolved_message env (lang this) error]
               else []))
  /\ (truthy (tip this) = true -> is_function (tipFn this) = false ->
      fst (interceptors.response_success env this res w)
      = Normal (if truthy (res_data res) then Rejected VTypeError
                else Fulfilled VUndefined)
      /\ fst (interceptors.response_error env this error w) = Throw VTypeError).
Proof.
  intros Hstatus Hne Hm Hdata Hlang.
  assert (Hs : String.eqb (ToString status) "0" = false)
    by (by apply String.eqb_neq).
  split; [|split; [reflexivity|split]].
  - split.
    + intros Hgate. pose proof (constructor_tip o axiosConfig Hgate) as Hfn.
      split; [|exact Hfn].
      revert Hgate. cbn [tip constructor]. unfold JS.and.
      destruct (truthy (default_to (VBool true) (opt_tip o))) eqn:Ht; [done|].
      by rewrite !Ht.
    + intros [Ht Hfn]. cbn [tip constructor]. unfold JS.and. rewrite Ht.
      assert (truthy (opt_tipFn o) = true) as ->
        by (by destruct (opt_tipFn o)).
      exact Hfn.
  - intros Hfn. split.
    + rewrite (response_success_run env this res status m data
                 (fun _ => Hfn) Hstatus Hm Hdata (or_intror Hlang)).
      by rewrite Hs.
    + by rewrite (response_error_run env this error (fun _ => Hfn) Hlang).
  - intros Ht Hfn. split.
    + rewrite (response_success_uncallable_run env this res status m data
                 Hstatus Hm Hdata (or_intror Hlang) w Hs Ht Hfn).
      unfold after_guard. by destruct (truthy (res_data res)).
    + by rewrite (response_error_uncallable_run env this error Hlang w Ht Hfn).
Qed.

Lemma tip_gate_is_stored_witness :
  (truthy (tip (constructor (tipping_options "zh-cn") None)) = true
   <-> truthy (VBool true) = true /\ is_function (VFun (Callback "tipFn")) = true)
  /\ fst (interceptors.response_success browser client_without_tipFn
            business_failure_1 start)
     = Normal (Rejected VTypeError)
  /\ fst (interceptors.response_error browser client_without_tipFn
            timeout_failure start)
     = Throw VTypeError.
Proof.
  assert (Hne : ToString (VNum 1) <> "0") by discriminate.
  destruct (tip_gate_is_stored browser (tipping_options "zh-cn") None
              client_without_tipFn business_failure_1 (VNum 1) (VStr "boom")
              VUndefined timeout_failure start
              eq_refl Hne eq_refl eq_refl (or_introl eq_refl))
    as (Hgate & _ & _ & Hunchecked).
  destruct (Hunchecked eq_refl eq_refl) as [Hsuccess Herror].
  split; [exact Hgate|]. split; [exact Hsuccess | exact Herror].
Defined.

(** *** C10: the defaults of the constructor *)

(** C10.  An option the constructor is not given takes its default: the
    language is zh-cn; the tip toggle is true, so that a function [tipFn]
    alone enables tipping, while without [tipFn] the stored gate is falsy;
    the loading callbacks are the empty function, whose call does nothing;
    the error-handler mapping is empty; and the accessors read the
    properties errno, errmsg and data of the body. *)
Theorem constructor_defaults
  (o : options) (axiosConfig : option (gmap string value)) :
  (opt_lang o = None -> lang (constructor o axiosConfig) = "zh-cn")
  /\ (opt_tip o = VUndefined ->
      truthy (tip (constructor o axiosConfig)) = is_function (opt_tipFn o))
  /\ (opt_tipFn o = VUndefined -> truthy (tip (constructor o axiosConfig)) = false)
  /\ (opt_loadingHandler o = VUndefined ->
      loadingHandler (constructor o axiosConfig) = VFun Noop)
  /\ (opt_loadingCancelHanlder o = VUndefined ->
      loadingCancelHanlder (constructor o axiosConfig) = VFun Noop)
  /\ (forall w, call (VFun Noop) [] w = (Normal tt, w))
  /\ (opt_errorHandlers o = None -> errorHandlers (constructor o axiosConfig) = ∅)
  /\ (opt_getResponseStatus o = None ->
      forall body, getResponseStatus (constructor o axiosConfig) body
                   = get_prop body "errno")
  /\ (opt_getResponseMessage o = None ->
      forall body, getResponseMessage (constructor o axiosConfig) body
                   = get_prop body "errmsg")
  /\ (opt_getResponseData o = None ->
      forall body, getResponseData (constructor o axiosConfig) body
                   = get_prop body "data").
Proof.
  cbn [lang tip loadingHandler loadingCancelHanlder errorHandlers
       getResponseStatus getResponseMessage getResponseData constructor].
  repeat split; try (intros ->; reflexivity).
  - intros ->. unfold JS.and, is_function. cbn [default_to truthy].
    destruct (truthy (opt_tipFn o)) eqn:Hf; [done|].
    rewrite Hf. by destruct (opt_tipFn o).
  - intros ->. unfold JS.and.
    by destruct (truthy (default_to (VBool true) (opt_tip o))) eqn:Ht; rewrite ?Ht.
Qed.

Lemma constructor_defaults_witness :
  lang (constructor no_options None) = "zh-cn"
  /\ truthy (tip (constructor no_options None)) = false
  /\ loadingHandler (constructor no_options None) = VFun Noop
  /\ loadingCancelHanlder (constructor no_options None) = VFun Noop
  /\ errorHandlers (constructor no_options None) = ∅
  /\ getResponseStatus (constructor no_options None)
       (VObj {[ "errno" := VNum 7 ]}) = Normal (VNum 7).
Proof.
  destruct (constructor_defaults no_options None)
    as (Hlang & _ & Htip & Hstart & Hstop & _ & Hhandlers & Hstatus & _ & _).
  split; [exact (Hlang eq_refl)|].
  split; [exact (Htip eq_refl)|].
  split; [exact (Hstart eq_refl)|].
  split; [exact (Hstop eq_refl)|].
  split; [exact (Hhandlers eq_refl)|].
  rewrite (Hstatus eq_refl). reflexivity.
Defined.

(** ** How computations compose *)

Section Shapes.

Context {A B : Type} (P : event -> Prop).

Lemma bind_throw (m : M A) (k : A -> M B) w e w' :
  m w = (Throw e, w') -> (m ≫= k) w = (Throw e, w').
Proof. intros H. unfold mbind, M_bind, bind. by rewrite H. Qed.

Lemma calm_bind (m : M A) (k : A -> M B) :
  calm P m -> (forall a, calm P (k a)) -> calm P (m ≫= k).
Proof.
  intros Hm Hk w. unfold mbind, M_bind, bind.
  destruct (Hm w) as (evs & Hevs & HP).
  destruct (m w) as [[a|e] w1]; simpl in Hevs.
  - destruct (Hk a w1) as (evs' & Hevs' & HP'). exists (evs ++ evs').
    rewrite Hevs', Hevs. cbn [trace promise].
    split; [by rewrite app_assoc | by apply Forall_app].
  - by exists evs.
Qed.

Lemma grows_bind (m : M A) (k : A -> M B) :
  grows P m -> (forall a, grows P (k a)) -> grows P (m ≫= k).
Proof.
  intros Hm Hk w. unfold mbind, M_bind, bind.
  destruct (Hm w) as (evs & Hevs & HP).
  destruct (m w) as [[a|e] w1]; simpl in Hevs.
  - destruct (Hk a w1) as (evs' & Hevs' & HP'). exists (evs ++ evs').
    rewrite Hevs', Hevs.
    split; [by rewrite app_assoc | by apply Forall_app].
  - by exists evs.
Qed.

Lemma sticky_bind (m : M A) (k : A -> M B) :
  sticky m -> (forall a, sticky (k a)) -> sticky (m ≫= k).
Proof.
  intros Hm Hk w Hw. unfold mbind, M_bind, bind.
  specialize (Hm w Hw). destruct (m w) as [[a|e] w1]; simpl in Hm; [|done].
  rewrite Hk; [done|]. by rewrite Hm.
Qed.

Lemma finishes_bind (m : M A) (k : A -> M B) :
  (forall a, finishes (k a)) -> finishes (m ≫= k).
Proof.
  intros Hk w b w'. unfold mbind, M_bind, bind.
  destruct (m w) as [[a|e] w1]; [|done]. apply Hk.
Qed.

Lemma calm_grows (m : M A) : calm P m -> grows P m.
Proof. intros H w. destruct (H w) as (evs & -> & HP). by exists evs. Qed.

Lemma calm_sticky (m : M A) : calm P m -> sticky m.
Proof. intros H w _. by destruct (H w) as (evs & -> & _). Qed.

Lemma calm_mret (a : A) : calm P (mret a : M A).
Proof.
  intros w. exists []. unfold mret, M_ret, ret. cbn [snd].
  by rewrite app_nil_r, world_eta.
Qed.

Lemma calm_lift (r : completion A) : calm P (lift r).
Proof.
  intros w. exists []. unfold lift. cbn [snd].
  by rewrite app_nil_r, world_eta.
Qed.

End Shapes.

Section Primitives.

Context (P : event -> Prop).

Lemma calm_call f args : (forall e, call_of f e -> P e) -> calm P (call f args).
Proof.
  intros HP w.
  destruct f as [| | | | |[|name]| |];
    try (exists []; unfold call, lift, ret; cbn [snd];
         by rewrite app_nil_r, world_eta).
  exists [Call name args]. split; [done|].
  apply Forall_singleton, HP. by exists args.
Qed.

Lemma calm_when b (m : M unit) : calm P m -> calm P (when b m).
Proof. destruct b; [done|]. intros _. apply (calm_mret P tt). Qed.

Lemma calm_loading config : calm P (interceptors.loading config).
Proof.
  intros w. exists []. rewrite loading_run. simpl.
  by rewrite app_nil_r, world_eta.
Qed.

Lemma grows_when b (m : M unit) : grows P m -> grows P (when b m).
Proof. destruct b; [done|]. intros _. apply calm_grows, (calm_mret P tt). Qed.

Lemma sticky_when b (m : M unit) : sticky m -> sticky (when b m).
Proof. destruct b; [done|]. intros _. apply (calm_sticky P), (calm_mret P tt). Qed.

Lemma grows_settle s : grows P (settle s).
Proof.
  intros w. exists []. unfold settle.
  destruct (promise w); simpl; by rewrite app_nil_r.
Qed.

Lemma sticky_settle s : sticky (settle s).
Proof.
  intros w Hw. unfold settle.
  destruct (promise w) eqn:Hp; simpl; congruence.
Qed.

Lemma finishes_settle s : s <> Pending -> finishes (settle s).
Proof.
  intros Hs w a w'. unfold settle.
  destruct (promise w) eqn:Hp; intros [= _ <-]; simpl; congruence.
Qed.

(** [new Promise] leaves the promise of its caller alone, whatever the
    executor does. *)
Lemma calm_new_promise (executor : M unit) :
  grows P executor -> calm P (new_promise executor).
Proof.
  intros He w. unfold new_promise.
  destruct (He (World (trace w) Pending)) as (evs & Hevs & HP).
  exists evs. cbn [trace] in Hevs.
  destruct (executor (World (trace w) Pending)) as [[[]|e] w1];
    simpl in Hevs; [|destruct (promise w1)]; simpl; by rewrite Hevs.
Qed.

(** A promise whose executor settles it when it returns is never left
    pending. *)
Lemma new_promise_settled (executor : M unit) w p w' :
  finishes executor ->
  new_promise executor w = (Normal p, w') -> p <> Pending.
Proof.
  intros He. unfold new_promise.
  destruct (executor (World (trace w) Pending)) as [[[]|e] w1] eqn:Hrun.
  - intros [= <- _]. by apply (He _ _ _ Hrun).
  - destruct (promise w1) eqn:Hp; by intros [= <- _].
Qed.

Lemma new_promise_normal (executor : M unit) w :
  exists p, fst (new_promise executor w) = Normal p.
Proof.
  unfold new_promise.
  destruct (executor (World (trace w) Pending)) as [[[]|e] w1]; [by eexists|].
  destruct (promise w1); by eexists.
Qed.

End Primitives.

(** ** Shapes of the interceptors *)

Lemma handler_is_callback this status e :
  call_of (interceptors.handler_for this status) e -> tip_or_handler this e.
Proof.
  unfold interceptors.handler_for.
  destruct (errorHandlers this !! ToString status) as [f|] eqn:Hf.
  - intros He. right. by exists (ToString status), f.
  - by intros [args [=]].
Qed.

Lemma calm_run_handler env this status :
  calm (tip_or_handler this)
    (interceptors.run_handler env (interceptors.handler_for this status)).
Proof. apply calm_when, calm_call, handler_is_callback. Qed.

(** Where the identifier [errorHandlers] is unresolvable, running a handler
    leaves no event, whatever the events are held to. *)
Lemma calm_run_handler_unresolved P env h :
  errorHandlers_global env = None -> calm P (interceptors.run_handler env h).
Proof.
  intros Hnone w. exists []. rewrite run_handler_unresolved by done.
  cbn [snd]. by rewrite app_nil_r, world_eta.
Qed.

Section InterceptorShapes.

Variables (env : environment) (this : VeryAxios) (P : event -> Prop).

Hypothesis tip_in : forall e, call_of (tipFn this) e -> P e.
Hypothesis handler_in :
  forall status,
    calm P (interceptors.run_handler env (interceptors.handler_for this status)).

Lemma calm_tip message :
  calm P (when (truthy (tip this)) (call (tipFn this) [message])).
Proof. apply calm_when, calm_call, tip_in. Qed.

Lemma grows_executor res : grows P (interceptors.executor env this res).
Proof.
  unfold interceptors.executor.
  apply grows_bind; [apply grows_when, grows_settle|intros _].
  apply grows_bind; [apply calm_grows, calm_lift|intros status].
  apply grows_bind; [apply calm_grows, calm_lift|intros m].
  apply grows_bind; [|intros message].
  { apply calm_grows. destruct (truthy m); [apply calm_mret|].
    apply calm_bind; [apply calm_lift|intros maps; apply calm_lift]. }
  apply grows_bind; [apply calm_grows, calm_lift|intros data].
  apply grows_bind; [|intros _; apply grows_settle].
  apply grows_when.
  apply grows_bind; [apply calm_grows, calm_tip|intros _].
  apply grows_bind; [apply calm_grows, handler_in|intros _].
  apply grows_settle.
Qed.

Lemma finishes_executor res : finishes (interceptors.executor env this res).
Proof.
  unfold interceptors.executor.
  do 6 (apply finishes_bind; intros ?).
  by apply finishes_settle.
Qed.

Lemma sticky_executor res : sticky (interceptors.executor env this res).
Proof.
  unfold interceptors.executor.
  apply sticky_bind; [apply (sticky_when P), sticky_settle|intros _].
  apply sticky_bind; [apply (calm_sticky P), calm_lift|intros status].
  apply sticky_bind; [apply (calm_sticky P), calm_lift|intros m].
  apply sticky_bind; [|intros message].
  { apply (calm_sticky P). destruct (truthy m); [apply calm_mret|].
    apply calm_bind; [apply calm_lift|intros maps; apply calm_lift]. }
  apply sticky_bind; [apply (calm_sticky P), calm_lift|intros data].
  apply sticky_bind; [|intros _; apply sticky_settle].
  apply (sticky_when P).
  apply sticky_bind; [apply (calm_sticky P), calm_tip|intros _].
  apply sticky_bind; [apply (calm_sticky P), handler_in|intros _].
  apply sticky_settle.
Qed.

Lemma response_success_shape res w :
  exists p rest,
    interceptors.response_success env this res w
    = (Normal p,
       World (trace w
              ++ loading_calls (res_config res) (loadingCancelHanlder this)
              ++ rest)
             (promise w))
    /\ p <> Pending
    /\ Forall P rest.
Proof.
  unfold interceptors.response_success.
  erewrite bind_run; [|apply loading_run].
  erewrite bind_run; [|apply loading_step].
  set (w1 := World _ _).
  destruct (calm_new_promise P _ (grows_executor res) w1)
    as (rest & Hsnd & Hrest).
  destruct (new_promise_normal (interceptors.executor env this res) w1) as [p Hp].
  destruct (new_promise (interceptors.executor env this res) w1) as [r w2] eqn:Hrun.
  simpl in Hsnd, Hp. subst r w2. exists p, rest.
  split; [|split; [|done]].
  - subst w1. cbn [trace promise]. by rewrite app_assoc.
  - by apply (new_promise_settled _ _ _ _ (finishes_executor res) Hrun).
Qed.

Lemma response_error_shape error w :
  exists r rest,
    interceptors.response_error env this error w
    = (r,
       World (trace w
              ++ loading_calls (err_config error) (loadingCancelHanlder this)
              ++ rest)
             (promise w))
    /\ Forall P rest.
Proof.
  unfold interceptors.response_error.
  erewrite bind_run; [|apply loading_run].
  erewrite bind_run; [|apply loading_step].
  set (w1 := World _ _). set (rem := (_ ≫= _)).
  assert (Hcalm : calm P rem).
  { subst rem.
    apply calm_bind; [apply calm_lift|intros errmsgMaps].
    apply calm_bind; [apply calm_lift|intros errmsg0].
    apply calm_bind; [|intros errmsg].
    - destruct (err_response error) as [response|].
      + apply calm_bind; [|intros errmsg].
        * destruct (negb (onLine env)); [apply calm_lift|].
          apply calm_bind; [apply calm_lift|intros entry; apply calm_mret].
        * apply calm_bind; [apply handler_in|intros _; apply calm_mret].
      + destruct (err_request error); apply calm_mret.
    - apply calm_bind; [apply calm_tip|intros _; apply calm_mret]. }
  destruct (Hcalm w1) as (rest & Hsnd & Hrest).
  destruct (rem w1) as [r w2]. simpl in Hsnd. subst w2.
  exists r, rest. split; [|done].
  subst w1. cbn [trace promise]. by rewrite app_assoc.
Qed.

End InterceptorShapes.

(** ** The chain, end to end *)

Section Chain.

Variables (env : environment) (this : VeryAxios).

Lemma request_run config w :
  interceptors.request this config w
  = (Normal config,
     World (trace w ++ loading_calls config (loadingHandler this)) (promise w)).
Proof.
  unfold interceptors.request.
  erewrite bind_run; [|apply loading_run].
  erewrite bind_run; [|apply loading_step].
  done.
Qed.

Lemma tip_in_callbacks e : call_of (tipFn this) e -> tip_or_handler this e.
Proof. intros He. by left. Qed.

(** The chain: loading is started; then either the transport rejects with
    a reason that carries no config and the error interceptor throws, or
    loading is stopped and the response interceptor runs. *)
Lemma chain_shape (net : network) call_config w :
  exists p rest,
    Axios.request env this net call_config w
    = (Normal p,
       World (trace w
              ++ loading_calls (call_config ∪ config this) (loadingHandler this)
              ++ rest)
             (promise w))
    /\ p <> Pending
    /\ match net (call_config ∪ config this) with
       | Aborted _ => rest = [] /\ p = Rejected VTypeError
       | _ =>
           exists rest',
             rest = loading_calls (call_config ∪ config this)
                      (loadingCancelHanlder this) ++ rest'
             /\ Forall (tip_or_handler this) rest'
       end.
Proof.
  unfold Axios.request, settled.
  erewrite bind_run; [|apply request_run].
  set (cfg := call_config ∪ config this). set (w1 := World _ _).
  destruct (net cfg) as [status data|r sent message|message].
  - destruct (response_success_shape env this (tip_or_handler this)
                tip_in_callbacks (calm_run_handler env this)
                (Response cfg status data) w1)
      as (p & rest & -> & Hp & Hrest).
    exists p, (loading_calls cfg (loadingCancelHanlder this) ++ rest).
    split; [|split; [done|by exists rest]].
    subst w1. cbn [trace promise res_config]. by rewrite <- !app_assoc.
  - destruct (response_error_shape env this (tip_or_handler this)
                tip_in_callbacks (calm_run_handler env this)
                (Error cfg ((fun '(status, data) => Response cfg status data) <$> r)
                   sent message) w1)
      as (res & rest & Hrun & Hrest).
    unfold mbind at 1, M_bind at 1, bind at 1.
    cbn [interceptors.rejected]. rewrite Hrun.
    subst w1. cbn [trace promise err_config].
    destruct res as [v|e].
    + exists (Fulfilled v), (loading_calls cfg (loadingCancelHanlder this) ++ rest).
      split; [|split; [done|by exists rest]].
      unfold mret, M_ret, ret. by rewrite <- !app_assoc.
    + exists (Rejected e), (loading_calls cfg (loadingCancelHanlder this) ++ rest).
      split; [|split; [done|by exists rest]]. by rewrite <- !app_assoc.
  - exists (Rejected VTypeError), []. subst w1.
    split; [|done]. cbn. by rewrite app_nil_r.
Qed.

(** Without a [veryAxiosConfig] of the instance, the flag is the call's. *)
Lemma loading_calls_call call_config handler :
  config this !! "veryAxiosConfig" = None ->
  loading_calls (call_config ∪ config this) handler
  = loading_calls call_config handler.
Proof.
  intros Hnone. unfold loading_calls, loading_flag.
  rewrite lookup_union. rewrite Hnone.
  by destruct (call_config !! "veryAxiosConfig").
Qed.

(** The promise of [fetch] and of [FORMDATA] repeats the one of the chain. *)
Lemma surface_run (chain : M pstate) t p w' :
  chain (World t Pending) = (Normal p, w') ->
  promise w' = Pending ->
  p <> Pending ->
  new_promise
    (p ← chain;
     match p with
     | Fulfilled response => resolve response
     | Rejected err => reject err
     | Pending => mret tt
     end) (World t Pending)
  = (Normal p, w').
Proof.
  intros Hrun Hw' Hp. unfold new_promise. cbn [trace promise].
  erewrite bind_run; [|exact Hrun].
  destruct w' as [t' p']. cbn in Hw'. subst p'.
  by destruct p.
Qed.

Lemma fetch_run (net : network) type path param options t :
  fetch env this net type path param options (World t Pending)
  = Axios.request env this net
      (method_config type path (default_to (VObj ∅) param)
         (default_to (VObj ∅) options))
      (World t Pending).
Proof.
  unfold fetch. cbv zeta.
  destruct (chain_shape net
              (method_config type path (default_to (VObj ∅) param)
                 (default_to (VObj ∅) options)) (World t Pending))
    as (p & rest & Hrun & Hp & _).
  rewrite Hrun. by apply surface_run.
Qed.

End Chain.

(** ** Further properties of the interceptors *)

(** X1.  The request interceptor hands the config on unchanged and never
    throws; it invokes the loading-start callback once when the config's
    [veryAxiosConfig.loading] is truthy and the callback is a function, and
    does nothing else. *)
Theorem request_interceptor_passes_config
  (this : VeryAxios) (config : gmap string value) (w : world) :
  interceptors.request this config w
  = (Normal config,
     World (trace w ++ loading_calls config (loadingHandler this)) (promise w)).
Proof. apply request_run. Qed.

(** X2.  Whatever the instance, the accessors and the response, the success
    interceptor never throws and never returns a pending promise: it first
    stops loading (when the request asked for it), and every later event is
    an invocation of the tip function or of a registered handler. *)
Theorem success_interceptor_settles
  (env : environment) (this : VeryAxios) (res : response) (w : world) :
  exists p rest,
    interceptors.response_success env this res w
    = (Normal p,
       World (trace w
              ++ loading_calls (res_config res) (loadingCancelHanlder this)
              ++ rest)
             (promise w))
    /\ p <> Pending
    /\ Forall (tip_or_handler this) rest.
Proof.
  apply response_success_shape; [by left|apply calm_run_handler].
Qed.

(** X3.  A 2xx response with a falsy body (none, [null], [""], [0],
    [false]) always fulfils the promise with [undefined], whatever the
    accessors do with such a body, even when they throw: line 99 has settled
    the promise before they run. *)
Theorem falsy_body_resolves_undefined
  (env : environment) (this : VeryAxios) (res : response) (w : world) :
  truthy (res_data res) = false ->
  fst (interceptors.response_success env this res w)
  = Normal (Fulfilled VUndefined).
Proof.
  intros Hbody. unfold interceptors.response_success.
  erewrite bind_run; [|apply loading_run].
  erewrite bind_run; [|apply loading_step].
  unfold new_promise. cbn [trace promise].
  set (t := trace w ++ _).
  assert (Heq : interceptors.executor env this res (World t Pending)
                = interceptors.executor env this res
                    (World t (Fulfilled VUndefined))).
  { unfold interceptors.executor. rewrite Hbody. cbn [negb when].
    erewrite bind_run; [|reflexivity].
    symmetry. erewrite bind_run; [|reflexivity]. done. }
  rewrite Heq.
  pose proof (sticky_executor env this (tip_or_handler this)
                (fun e He => or_introl He) (calm_run_handler env this)
                res (World t (Fulfilled VUndefined)))
    as Hsticky.
  cbn [promise] in Hsticky.
  destruct (interceptors.executor env this res (World t (Fulfilled VUndefined)))
    as [[[]|e] w1]; cbn [snd] in Hsticky; rewrite Hsticky; done.
Qed.

Lemma falsy_body_resolves_undefined_witness :
  fst (interceptors.response_success browser (constructor no_options None)
         null_body start)
  = Normal (Fulfilled VUndefined).
Proof.
  apply (falsy_body_resolves_undefined browser (constructor no_options None)
           null_body start).
  reflexivity.
Defined.

(** X4.  On a truthy body, an exception thrown by an accessor rejects the
    promise with that exception: the first one in the order status, message,
    data, each of which is read before the status is examined.  Nothing is
    tipped and no handler runs. *)
Theorem accessor_exception_rejects
  (env : environment) (this : VeryAxios) (res : response) (e : value)
  (w : world) :
  truthy (res_data res) = true ->
  (getResponseStatus this (res_data res) = Throw e
   \/ (exists status,
         getResponseStatus this (res_data res) = Normal status
         /\ getResponseMessage this (res_data res) = Throw e)
   \/ (exists status m,
         getResponseStatus this (res_data res) = Normal status
         /\ getResponseMessage this (res_data res) = Normal m
         /\ (truthy m = true \/ supported (lang this))
         /\ getResponseData this (res_data res) = Throw e)) ->
  interceptors.response_success env this res w
  = (Normal (Rejected e),
     World (trace w ++ loading_calls (res_config res) (loadingCancelHanlder this))
           (promise w)).
Proof.
  intros Hbody Hthrow. unfold interceptors.response_success.
  erewrite bind_run; [|apply loading_run].
  erewrite bind_run; [|apply loading_step].
  unfold new_promise, interceptors.executor. cbn [trace promise].
  rewrite Hbody. cbn [negb when].
  erewrite bind_run; [|reflexivity].
  destruct Hthrow as [Hs | [(status & Hs & Hm) | (status & m & Hs & Hm & Hl & Hd)]].
  - erewrite bind_throw; [|unfold lift; by rewrite Hs]. done.
  - erewrite bind_run; [|unfold lift; by rewrite Hs].
    erewrite bind_throw; [|unfold lift; by rewrite Hm]. done.
  - erewrite bind_run; [|unfold lift; by rewrite Hs].
    erewrite bind_run; [|unfold lift; by rewrite Hm].
    assert (Hmessage : exists message, forall w0,
      (if truthy m then mret m
       else maps ← lift (get_prop ERROR_MESSAGE_MAPS (lang this));
            lift (get_prop maps "DEFAULT")) w0
      = (Normal message, w0)).
    { destruct (truthy m) eqn:Ht; [by exists m|].
      destruct Hl as [Hl|Hl]; [done|].
      destruct (catalog_maps _ Hl) as (maps & Hmaps & _).
      eexists. intros w0.
      erewrite bind_run; [|unfold lift; by rewrite Hmaps]. reflexivity. }
    destruct Hmessage as [message Hmessage].
    erewrite bind_run; [|apply Hmessage].
    erewrite bind_throw; [|unfold lift; by rewrite Hd]. done.
Qed.

Lemma accessor_exception_rejects_witness :
  interceptors.response_success browser client_reading_deep business_failure_1 start
  = (Normal (Rejected VTypeError), World [] Pending).
Proof.
  apply (accessor_exception_rejects browser client_reading_deep
           business_failure_1 VTypeError start).
  - reflexivity.
  - right. right. exists (VNum 1), (VStr "boom").
    repeat split; try reflexivity. by left.
Defined.

(** X5.  For a client built by the constructor with tipping enabled and a
    language of the catalog, a business failure on a truthy body on which
    the three accessors return, with no handler registered for the status,
    stops loading when the request asked for it, then invokes the tip
    function exactly once, with the resolved message, and rejects the
    promise with that message; nothing else happens. *)
Theorem business_failure_tips_once
  (env : environment) (o : options) (axiosConfig : option (gmap string value))
  (res : response) (status m data : value) (name : string) (w : world) :
  truthy (res_data res) = true ->
  getResponseStatus (constructor o axiosConfig) (res_data res) = Normal status ->
  ToString status <> "0" ->
  getResponseMessage (constructor o axiosConfig) (res_data res) = Normal m ->
  getResponseData (constructor o axiosConfig) (res_data res) = Normal data ->
  supported (lang (constructor o axiosConfig)) ->
  truthy (tip (constructor o axiosConfig)) = true ->
  tipFn (constructor o axiosConfig) = VFun (Callback name) ->
  errorHandlers (constructor o axiosConfig) !! ToString status = None ->
  interceptors.response_success env (constructor o axiosConfig) res w
  = (Normal (Rejected (if truthy m then m
                       else catalog (lang (constructor o axiosConfig)) "DEFAULT")),
     World (trace w
            ++ loading_calls (res_config res)
                 (loadingCancelHanlder (constructor o axiosConfig))
            ++ [Call name
                  [if truthy m then m
                   else catalog (lang (constructor o axiosConfig)) "DEFAULT"]])
           (promise w)).
Proof.
  intros Hbody Hstatus Hne Hm Hdata Hlang Htip Hfn Hnone.
  rewrite (response_success_run env _ res status m data
             (constructor_tip o axiosConfig) Hstatus Hm Hdata (or_intror Hlang)).
  assert (String.eqb (ToString status) "0" = false) as ->
    by (by apply String.eqb_neq).
  rewrite (handler_calls_unregistered _ _ _ Hnone).
  unfold after_guard, tip_calls. rewrite Hbody, Htip, Hfn.
  cbn [calls settle_pure]. by rewrite app_nil_r.
Qed.

Lemma business_failure_tips_once_witness :
  interceptors.response_success browser (constructor (tipping_options "zh-cn") None)
    custom_error start
  = (Normal (Rejected (VStr "自定义错误")),
     World [Call "tipFn" [VStr "自定义错误"]] Pending).
Proof.
  apply (business_failure_tips_once browser (tipping_options "zh-cn") None
           custom_error (VStr "1") (VStr "自定义错误") VUndefined "tipFn" start);
    try reflexivity.
  - discriminate.
  - by left.
Defined.

(** ** Further properties of the chain and of the verb methods *)

(** X6.  On an instance whose config has no [veryAxiosConfig], every
    request made through the axios instance settles: the chain never throws
    and its promise is never left pending.  Loading is started first, on the
    flag of the call's config.  When the transport answers, or fails with an
    error that carries the config, loading is stopped next, on the same
    flag, whatever the response interceptor runs into afterwards, and every
    later event is an invocation of the tip function or of a registered
    handler.  When the transport rejects with a reason that carries no
    config, the error interceptor throws at line 118: loading is not
    stopped, nothing is tipped, and the promise is rejected with the
    TypeError. *)
Theorem chain_brackets_loading
  (env : environment) (this : VeryAxios) (net : network)
  (call_config : gmap string value) (w : world) :
  config this !! "veryAxiosConfig" = None ->
  exists p rest,
    Axios.request env this net call_config w
    = (Normal p,
       World (trace w ++ loading_calls call_config (loadingHandler this) ++ rest)
             (promise w))
    /\ p <> Pending
    /\ match net (call_config ∪ config this) with
       | Aborted _ => rest = [] /\ p = Rejected VTypeError
       | _ =>
           exists rest',
             rest = loading_calls call_config (loadingCancelHanlder this) ++ rest'
             /\ Forall (tip_or_handler this) rest'
       end.
Proof.
  intros Hnone.
  destruct (chain_shape env this net call_config w) as (p & rest & Hrun & Hp & H).
  rewrite !loading_calls_call in Hrun, H by done.
  by exists p, rest.
Qed.

Lemma chain_brackets_loading_witness :
  exists p rest,
    Axios.request browser (constructor tipping_loading_options None) net_cancelled
      {[ "veryAxiosConfig" := loading_on ]} start
    = (Normal p, World ([] ++ [Call "loadingHandler" []] ++ rest) Pending)
    /\ rest = [] /\ p = Rejected VTypeError.
Proof.
  assert (Hnone : config (constructor tipping_loading_options None)
                    !! "veryAxiosConfig" = None)
    by (vm_compute; reflexivity).
  destruct (chain_brackets_loading browser
              (constructor tipping_loading_options None) net_cancelled
              {[ "veryAxiosConfig" := loading_on ]} start Hnone)
    as (p & rest & Hrun & _ & H).
  exists p, rest. split; [exact Hrun | exact H].
Defined.

(** X7.  [fetch] surfaces the outcome of the axios call unchanged: its
    promise is fulfilled or rejected with exactly what the chain settles to,
    and it adds no event of its own. *)
Theorem fetch_surfaces_chain
  (env : environment) (this : VeryAxios) (net : network) (type : verb)
  (path : string) (param options : value) (t : list event) :
  fetch env this net type path param options (World t Pending)
  = Axios.request env this net
      (method_config type path (default_to (VObj ∅) param)
         (default_to (VObj ∅) options))
      (World t Pending).
Proof. apply fetch_run. Qed.

(** X8.  For a client built by the constructor with a language of the
    catalog, a failure the transport reports with an error that carries the
    config never rejects the promise of [fetch]: whichever the verb, the
    promise is fulfilled with [undefined], because the error interceptor
    returns nothing.  A rejection whose reason carries no config does reject
    it, not with the reason but with the TypeError of line 118. *)
Theorem transport_failure_fulfils_undefined
  (env : environment) (o : options) (axiosConfig : option (gmap string value))
  (net : network) (type : verb) (path : string) (param options : value)
  (t : list event) :
  supported (lang (constructor o axiosConfig)) ->
  (forall r sent message,
     net (request_config (constructor o axiosConfig) type path param options)
     = Failure r sent message ->
     fst (fetch env (constructor o axiosConfig) net type path param options
            (World t Pending))
     = Normal (Fulfilled VUndefined))
  /\ (forall message,
        net (request_config (constructor o axiosConfig) type path param options)
        = Aborted message ->
        fst (fetch env (constructor o axiosConfig) net type path param options
               (World t Pending))
        = Normal (Rejected VTypeError)).
Proof.
  intros Hlang. split.
  - intros r sent message Hnet. rewrite fetch_run.
    unfold Axios.request, settled.
    erewrite bind_run; [|apply request_run].
    unfold request_config in Hnet. rewrite Hnet.
    cbn [interceptors.rejected].
    erewrite bind_run;
      [|by apply response_error_run; [apply constructor_tip|]].
    done.
  - intros message Hnet. rewrite fetch_run.
    unfold Axios.request, settled.
    erewrite bind_run; [|apply request_run].
    unfold request_config in Hnet. by rewrite Hnet.
Qed.

Lemma transport_failure_fulfils_undefined_witness :
  fst (fetch browser (constructor (tipping_options "en") None) net_down post
         "/x" (VObj ∅) loading_on (World [] Pending))
  = Normal (Fulfilled VUndefined)
  /\ fst (fetch browser (constructor (tipping_options "en") None) net_cancelled
            post "/x" (VObj ∅) loading_on (World [] Pending))
     = Normal (Rejected VTypeError).
Proof.
  split.
  - apply (proj1 (transport_failure_fulfils_undefined browser
                    (tipping_options "en") None net_down post "/x" (VObj ∅)
                    loading_on [] (or_intror eq_refl))
             None true "Network Error").
    reflexivity.
  - apply (proj2 (transport_failure_fulfils_undefined browser
                    (tipping_options "en") None net_cancelled post "/x" (VObj ∅)
                    loading_on [] (or_intror eq_refl))
             "Request cancelled").
    reflexivity.
Defined.

(** X9.  [GET] with an options object whose [loading] is truthy, on an
    instance whose two loading callbacks are functions, invokes the
    loading-start callback first.  When the transport answers, or fails with
    an error that carries the config, the loading-stop callback is invoked
    next, before any other event, and the promise is settled.  When the
    transport rejects with a reason that carries no config, loading is never
    stopped: the loading-start callback is the only event, and the promise
    is rejected with the TypeError of line 118. *)
Theorem GET_brackets_loading
  (env : environment) (this : VeryAxios) (net : network) (path : string)
  (param : value) (o : gmap string value) (begin cancel : string)
  (t : list event) :
  truthy (default VUndefined (o !! "loading")) = true ->
  loadingHandler this = VFun (Callback begin) ->
  loadingCancelHanlder this = VFun (Callback cancel) ->
  exists p rest,
    GET env this net path param (VObj o) (World t Pending)
    = (Normal p, World (t ++ [Call begin []] ++ rest) Pending)
    /\ p <> Pending
    /\ match net (request_config this get path
                    (VObj {[ "params" := default_to (VObj ∅) param;
                             "veryAxiosConfig" := VObj o ]})
                    VUndefined) with
       | Aborted _ => rest = [] /\ p = Rejected VTypeError
       | _ =>
           exists rest',
             rest = Call cancel [] :: rest'
             /\ Forall (tip_or_handler this) rest'
       end.
Proof.
  intros Hflag Hbegin Hcancel. unfold GET. cbv zeta. rewrite fetch_run.
  unfold request_config.
  cbn [default_to method_config as_config].
  set (cc := <["method" := _]> _).
  destruct (chain_shape env this net cc (World t Pending))
    as (p & rest & Hrun & Hp & Hrest).
  assert (Hlook : (cc ∪ config this) !! "veryAxiosConfig" = Some (VObj o)).
  { apply lookup_union_Some_l. subst cc.
    rewrite !lookup_insert_ne by done. apply lookup_singleton_eq. }
  assert (Hcalls : forall name,
    loading_calls (cc ∪ config this) (VFun (Callback name)) = [Call name []]).
  { intros name. unfold loading_calls, loading_flag. by rewrite Hlook, Hflag. }
  rewrite Hbegin, Hcancel, !Hcalls in *.
  exists p, rest. by rewrite Hrun.
Qed.

Lemma GET_brackets_loading_witness :
  exists p rest,
    GET browser (constructor loading_options None) net_down "/x" VUndefined
      loading_on (World [] Pending)
    = (Normal p, World ([] ++ [Call "loadingHandler" []] ++ rest) Pending)
    /\ p <> Pending
    /\ exists rest', rest = Call "loadingCancelHanlder" [] :: rest'.
Proof.
  assert (Hflag : truthy (default VUndefined
                            (({[ "loading" := VBool true ]} : gmap string value)
                               !! "loading")) = true)
    by (vm_compute; reflexivity).
  destruct (GET_brackets_loading browser (constructor loading_options None)
              net_down "/x" VUndefined {[ "loading" := VBool true ]}
              "loadingHandler" "loadingCancelHanlder" []
              Hflag eq_refl eq_refl)
    as (p & rest & H & Hp & rest' & Hrest & _).
  exists p, rest. split; [exact H|]. split; [exact Hp|]. by exists rest'.
Defined.

(** X10.  [POST] and [PUT] never read the [loading] property of their
    per-call options: when neither the options nor the instance's
    configuration has a [veryAxiosConfig] property, no loading callback is
    invoked by the interceptors, whatever else the options hold; every event
    of the call is an invocation of the tip function or of a registered
    handler. *)
Theorem POST_PUT_do_not_load
  (env : environment) (this : VeryAxios) (net : network) (path : string)
  (param : value) (o : gmap string value) (t : list event) :
  o !! "veryAxiosConfig" = None ->
  config this !! "veryAxiosConfig" = None ->
  (exists p rest,
     POST env this net path param (VObj o) (World t Pending)
     = (Normal p, World (t ++ rest) Pending)
     /\ Forall (tip_or_handler this) rest)
  /\ (exists p rest,
        PUT env this net path param (VObj o) (World t Pending)
        = (Normal p, World (t ++ rest) Pending)
        /\ Forall (tip_or_handler this) rest).
Proof.
  intros Ho Hthis.
  assert (Hany : forall type, type = post \/ type = put ->
    exists p rest,
      fetch env this net type path (default_to (VObj ∅) param) (VObj o)
        (World t Pending)
      = (Normal p, World (t ++ rest) Pending)
      /\ Forall (tip_or_handler this) rest).
  { intros type Htype. rewrite fetch_run.
    set (cc := method_config _ _ _ _).
    assert (Hlook : (cc ∪ config this) !! "veryAxiosConfig" = None).
    { apply lookup_union_None. split; [|done]. subst cc.
      destruct Htype as [-> | ->]; cbn [method_config as_config default_to];
        by rewrite !lookup_insert_ne. }
    assert (Hcalls : forall h, loading_calls (cc ∪ config this) h = []).
    { intros h. unfold loading_calls, loading_flag. by rewrite Hlook. }
    destruct (chain_shape env this net cc (World t Pending))
      as (p & rest & Hrun & _ & Hrest).
    rewrite !Hcalls in Hrun, Hrest. exists p, rest. split; [done|].
    destruct (net (cc ∪ config this)) as [status data|r sent m|m].
    - by destruct Hrest as (rest' & -> & Hrest').
    - by destruct Hrest as (rest' & -> & Hrest').
    - destruct Hrest as [-> _]. constructor. }
  split; [apply (Hany post) | apply (Hany put)]; auto.
Qed.

Lemma POST_PUT_do_not_load_witness :
  exists p rest,
    POST browser (constructor loading_options None) net_ok "/x" (VObj ∅)
      loading_on (World [] Pending)
    = (Normal p, World ([] ++ rest) Pending)
    /\ Forall (tip_or_handler (constructor loading_options None)) rest.
Proof.
  assert (Ho : ({[ "loading" := VBool true ]} : gmap string value)
                 !! "veryAxiosConfig" = None)
    by (vm_compute; reflexivity).
  assert (Hthis : config (constructor loading_options None)
                    !! "veryAxiosConfig" = None)
    by (vm_compute; reflexivity).
  destruct (POST_PUT_do_not_load browser (constructor loading_options None)
              net_ok "/x" (VObj ∅) {[ "loading" := VBool true ]} []
              Ho Hthis)
    as [Hpost _].
  exact Hpost.
Defined.

(** X11.  [DELETE] takes its parameters for the axios config and does not
    use its per-call options at all: [axios.delete] takes the config as its
    second argument, where [fetch] passes the parameters, and ignores a
    third.  So any two options give the same call, and it is a
    [veryAxiosConfig.loading] among the parameters that starts loading, and
    stops it when the transport answers or fails with an error that carries
    the config. *)
Theorem DELETE_ignores_options
  (env : environment) (this : VeryAxios) (net : network) (path : string)
  (m o : gmap string value) (options : value) (begin cancel : string)
  (t : list event) :
  m !! "veryAxiosConfig" = Some (VObj o) ->
  truthy (default VUndefined (o !! "loading")) = true ->
  loadingHandler this = VFun (Callback begin) ->
  loadingCancelHanlder this = VFun (Callback cancel) ->
  (forall options' w,
     DELETE env this net path (VObj m) options w
     = DELETE env this net path (VObj m) options' w)
  /\ exists p rest,
       DELETE env this net path (VObj m) options (World t Pending)
       = (Normal p, World (t ++ [Call begin []] ++ rest) Pending)
       /\ p <> Pending
       /\ ((forall message,
              net (request_config this delete path (VObj m) options)
              <> Aborted message) ->
           exists rest', rest = Call cancel [] :: rest').
Proof.
  intros Hm Hflag Hbegin Hcancel. split; [reflexivity|].
  unfold DELETE. cbv zeta. rewrite fetch_run.
  unfold request_config.
  cbn [default_to method_config as_config].
  set (cc := <["method" := _]> _).
  destruct (chain_shape env this net cc (World t Pending))
    as (p & rest & Hrun & Hp & Hrest).
  assert (Hlook : (cc ∪ config this) !! "veryAxiosConfig" = Some (VObj o)).
  { apply lookup_union_Some_l. subst cc. by rewrite !lookup_insert_ne. }
  assert (Hcalls : forall name,
    loading_calls (cc ∪ config this) (VFun (Callback name)) = [Call name []]).
  { intros name. unfold loading_calls, loading_flag. by rewrite Hlook, Hflag. }
  rewrite Hbegin, Hcancel, !Hcalls in *.
  exists p, rest. split; [by rewrite Hrun|]. split; [done|].
  intros Hanswered.
  destruct (net (cc ∪ config this)) as [status data|r sent msg|msg].
  - destruct Hrest as (rest' & -> & _). by exists rest'.
  - destruct Hrest as (rest' & -> & _). by exists rest'.
  - by destruct (Hanswered msg).
Qed.

Lemma DELETE_ignores_options_witness :
  exists p rest,
    DELETE browser (constructor loading_options None) net_ok "/x"
      (VObj {[ "veryAxiosConfig" := loading_on ]}) VUndefined (World [] Pending)
    = (Normal p, World ([] ++ [Call "loadingHandler" []] ++ rest) Pending)
    /\ p <> Pending
    /\ exists rest', rest = Call "loadingCancelHanlder" [] :: rest'.
Proof.
  assert (Hm : ({[ "veryAxiosConfig" := loading_on ]} : gmap string value)
                 !! "veryAxiosConfig"
               = Some (VObj {[ "loading" := VBool true ]}))
    by (vm_compute; reflexivity).
  assert (Hflag : truthy (default VUndefined
                            (({[ "loading" := VBool true ]} : gmap string value)
                               !! "loading")) = true)
    by (vm_compute; reflexivity).
  destruct (DELETE_ignores_options browser (constructor loading_options None)
              net_ok "/x" {[ "veryAxiosConfig" := loading_on ]}
              {[ "loading" := VBool true ]} VUndefined
              "loadingHandler" "loadingCancelHanlder" []
              Hm Hflag eq_refl eq_refl)
    as (_ & p & rest & H & Hp & Hstop).
  exists p, rest. split; [exact H|]. split; [exact Hp|].
  apply Hstop. intros message. discriminate.
Defined.

(** X12.  [FORMDATA] of a form that is not [undefined] is [POST] of the same
    body with the multipart content-type header as per-call options: it goes
    through the same interceptors, and so resolves with the unwrapped
    payload or rejects with the message like any other call. *)
Theorem FORMDATA_is_POST
  (env : environment) (this : VeryAxios) (net : network) (path : string)
  (formdata : value) (w : world) :
  formdata <> VUndefined ->
  FORMDATA env this net path formdata w
  = POST env this net path formdata multipart_options w.
Proof.
  intros Hform.
  assert (Hcfg :
    Axios.call_config path
      (VObj {[ "method" := VStr "post"; "data" := formdata;
               "headers" := VObj {[ "content-type" :=
                                      VStr "multipart/form-data;charset=UTF-8" ]} ]})
    = method_config post path formdata multipart_options).
  { unfold Axios.call_config, method_config, multipart_options, as_config,
      verb_name.
    by rewrite (insert_insert_ne _ "url" "method") by done. }
  assert (Hdef : default_to (VObj ∅) formdata = formdata)
    by (by destruct formdata).
  unfold FORMDATA, POST, fetch. cbv zeta. rewrite Hcfg, !Hdef.
  change (default_to (VObj ∅) multipart_options) with multipart_options.
  done.
Qed.

Lemma FORMDATA_is_POST_witness :
  FORMDATA browser (constructor no_options None) net_ok "/upload"
    (VObj {[ "file" := VStr "bytes" ]}) start
  = POST browser (constructor no_options None) net_ok "/upload"
      (VObj {[ "file" := VStr "bytes" ]}) multipart_options start.
Proof.
  apply (FORMDATA_is_POST browser (constructor no_options None) net_ok "/upload"
           (VObj {[ "file" := VStr "bytes" ]}) start).
  discriminate.
Defined.



(** X14.  The error interceptor reads nothing of a failure but its config,
    the status code of the server's response and the raw message: the body
    of the server's response is never consulted, so a message the server
    sends with a non-2xx status is not shown, and a request that was sent
    without being answered is treated like one that was never sent. *)
Theorem error_interceptor_ignores_body
  (env : environment) (this : VeryAxios) (config config' : gmap string value)
  (status : Z) (body body' : value) (sent sent' : bool) (message : string)
  (w : world) :
  interceptors.response_error env this
    (Error config (Some (Response config' status body)) sent message) w
  = interceptors.response_error env this
      (Error config (Some (Response config status body')) sent' message) w
  /\ interceptors.response_error env this (Error config None sent message) w
     = interceptors.response_error env this (Error config None sent' message) w.
Proof.
  split; [reflexivity|].
  unfold interceptors.response_error. cbn [err_response err_request].
  by destruct sent, sent'.
Qed.

(** X15.  Where no global named [errorHandlers] exists, neither response
    interceptor ever invokes a registered handler, whatever the instance and
    its input: after loading has been stopped, every event is an invocation
    of the tip function. *)
Theorem handlers_need_the_global
  (env : environment) (this : VeryAxios) (res : response) (error : error)
  (w : world) :
  errorHandlers_global env = None ->
  (exists p rest,
     interceptors.response_success env this res w
     = (Normal p,
        World (trace w
               ++ loading_calls (res_config res) (loadingCancelHanlder this)
               ++ rest)
              (promise w))
     /\ Forall (call_of (tipFn this)) rest)
  /\ (exists r rest,
        interceptors.response_error env this error w
        = (r,
           World (trace w
                  ++ loading_calls (err_config error) (loadingCancelHanlder this)
                  ++ rest)
                 (promise w))
        /\ Forall (call_of (tipFn this)) rest).
Proof.
  intros Hnone. split.
  - destruct (response_success_shape env this (call_of (tipFn this))
                (fun e He => He)
                (fun status => calm_run_handler_unresolved _ env _ Hnone)
                res w)
      as (p & rest & Hrun & _ & Hrest).
    by exists p, rest.
  - apply (response_error_shape env this (call_of (tipFn this))
             (fun e He => He)
             (fun status => calm_run_handler_unresolved _ env _ Hnone)).
Qed.

Lemma handlers_need_the_global_witness :
  exists p rest,
    interceptors.response_success browser client_with_handlers
      business_failure_1 start
    = (Normal p, World ([] ++ [] ++ rest) Pending)
    /\ Forall (call_of (VFun (Callback "tipFn"))) rest.
Proof.
  destruct (handlers_need_the_global browser client_with_handlers
              business_failure_1 not_found_failure start eq_refl)
    as [(p & rest & H & Hrest) _].
  by exists p, rest.
Defined.
